(** * mcp-server-airbnb: the protocol / gateway layer

    A shallow embedding of the HTTP gateway ([http-server.ts], class
    [HTTPMCPServer]) and of the stdio request handlers ([index.ts],
    [runStdioServer]), followed by the properties of the gateway that the
    specification states.

    Conventions of the embedding:
    - JavaScript values are the inductive [JValue]; an object is a finite
      map from property names to values ([gmap string JValue]);
    - a JavaScript string is a [string] whose characters are read as code
      units below 256;
    - numbers are the integers (request ids, listing ids, error codes);
    - a computation that may log, call a tool or throw is a function from
      the server state to a new state and an [Outcome];
    - what lives in [mcp-core.js], in [crypto] and in the MCP SDK is an
      interface ([McpCore], [Runtime], [ErrorCode]). *)

From Stdlib Require Import Ascii String ZArith.
From stdpp Require Import gmap strings list fin_maps pretty.

Set Warnings "-register-all".

(** ** JavaScript values *)

Inductive JValue : Type :=
  | JUndefined
  | JNull
  | JBool (b : bool)
  | JNum (n : Z)
  | JStr (s : string)
  | JArr (xs : list JValue)
  | JObj (m : gmap string JValue).

(** An object literal [{k1: v1, ..., kn: vn}]: later keys win. *)
Definition obj (kvs : list (string * JValue)) : JValue :=
  JObj (list_to_map (reverse kvs)).

(** [!v] is [negb (truthy v)]. *)
Definition truthy (v : JValue) : bool :=
  match v with
  | JUndefined | JNull => false
  | JBool b => b
  | JNum n => negb (n =? 0)%Z
  | JStr s => negb (String.eqb s "")
  | JArr _ | JObj _ => true
  end.

(** [a || b] on values. *)
Definition js_or (a b : JValue) : JValue := if truthy a then a else b.

(** [v === 'lit']. *)
Definition is_str (v : JValue) (lit : string) : bool :=
  match v with
  | JStr s => String.eqb s lit
  | _ => false
  end.

(** ** Strings *)

Module Str.

(** [s.substring(n)]. *)
Fixpoint drop (n : nat) (s : string) : string :=
  match n, s with
  | O, _ => s
  | S n', String _ s' => drop n' s'
  | S _, EmptyString => EmptyString
  end.

(** [s.substring(0, n)]. *)
Fixpoint take (n : nat) (s : string) : string :=
  match n, s with
  | S n', String c s' => String c (take n' s')
  | _, _ => EmptyString
  end.

(** [s.startsWith(p)]. *)
Definition startsWith (p s : string) : bool := String.prefix p s.

(** White space and line terminators of ECMAScript among the code units
    below 256: TAB, LF, VT, FF, CR, SP and NBSP. *)
Definition is_ws (c : ascii) : bool :=
  let n := nat_of_ascii c in
  (((9 <=? n) && (n <=? 13)) || (n =? 32) || (n =? 160))%nat.

Fixpoint trimStart (s : string) : string :=
  match s with
  | String c s' => if is_ws c then trimStart s' else s
  | EmptyString => EmptyString
  end.

Fixpoint trimEnd (s : string) : string :=
  match s with
  | String c s' =>
      match trimEnd s' with
      | EmptyString => if is_ws c then EmptyString else String c EmptyString
      | t => String c t
      end
  | EmptyString => EmptyString
  end.

(** [s.trim()]. *)
Definition trim (s : string) : string := trimEnd (trimStart s).

(** [s.split(sep)] for a one-character separator: never the empty
    array, [''.split(',')] is [['']]. *)
Fixpoint split (sep : ascii) (s : string) : list string :=
  match s with
  | EmptyString => [EmptyString]
  | String c s' =>
      if Ascii.eqb c sep then EmptyString :: split sep s'
      else match split sep s' with
           | w :: ws => String c w :: ws
           | [] => [String c EmptyString]
           end
  end.

(** [xs.join(sep)]. *)
Fixpoint join (sep : string) (xs : list string) : string :=
  match xs with
  | [] => ""
  | [x] => x
  | x :: rest => x +:+ sep +:+ join sep rest
  end.

End Str.

(** How a [TypeError] names [null] and [undefined]. *)
Definition nullishText (v : JValue) : string :=
  match v with
  | JNull => "null"
  | _ => "undefined"
  end.

(** ** Errors and outcomes *)

(** The error codes of the MCP SDK that the gateway uses (the JSON-RPC 2.0
    taxonomy), with the numbers the SDK's [ErrorCode] enum gives them. *)
Inductive ErrorCode : Type :=
  | ParseError
  | InvalidRequest
  | MethodNotFound
  | InvalidParams
  | InternalError.

Definition code_number (c : ErrorCode) : Z :=
  match c with
  | ParseError => -32700
  | InvalidRequest => -32600
  | MethodNotFound => -32601
  | InvalidParams => -32602
  | InternalError => -32603
  end.

(** What a [throw] can carry: [new McpError(code, message)] with the two
    arguments it was built from, any other [Error] instance ([TypeError],
    [SyntaxError], ...) with its [message], or a value that is not an
    [Error]. The [message] the SDK gives an [McpError] and the [stack] the
    runtime records for an error are [mcpErrorMessage] and [stack_of],
    below. *)
Inductive JsError : Type :=
  | McpError (code : Z) (message : string)
  | ErrorObj (message : string)
  | Thrown (v : JValue).

(** [error instanceof McpError ? error.code : fallback]. *)
Definition error_code_or (fallback : ErrorCode) (e : JsError) : Z :=
  match e with
  | McpError c _ => c
  | _ => code_number fallback
  end.

Inductive Outcome (A : Type) : Type :=
  | Returns (a : A)
  | Throws (e : JsError).
Arguments Returns {A} a.
Arguments Throws {A} e.

(** ** The server state and its monad *)

Record LogEntry : Type := mkLog {
  level : string;
  message : string;
  data : JValue
}.

(** The normalized form every surface reduces a call to. *)
Record ToolInvocation : Type := mkInvocation {
  tool : string;
  arguments : JValue
}.

Record ServerState : Type := mkState {
  validTokenHashes : gset string;
  logs : list LogEntry;
  invocations : list ToolInvocation
}.

Definition initialState : ServerState :=
  {| validTokenHashes := ∅; logs := []; invocations := [] |}.

Definition M (A : Type) : Type := ServerState → ServerState * Outcome A.

Definition ret {A} (a : A) : M A := fun st => (st, Returns a).

Definition throw {A} (e : JsError) : M A := fun st => (st, Throws e).

Definition bind {A B} (c : M A) (k : A → M B) : M B :=
  fun st =>
    match c st with
    | (st', Returns a) => k a st'
    | (st', Throws e) => (st', Throws e)
    end.

(** [try { body } catch (error) { handler }]. *)
Definition try_catch {A} (body : M A) (handler : JsError → M A) : M A :=
  fun st =>
    match body st with
    | (st', Returns a) => (st', Returns a)
    | (st', Throws e) => handler e st'
    end.

(** Sequencing is written with stdpp's monad notations: [x ← c; k] and
    [c;; k]. *)
#[global] Instance M_ret : MRet M := @ret.
#[global] Instance M_bind : MBind M := fun A B k c => bind c k.

(** Modelled from the spec: [log(level, message, data)] of [mcp-core.js]
    (structured logging), which is not among the sources. A call appends
    one line that holds its three arguments. *)
Definition log (lvl msg : string) (d : JValue) : M unit :=
  fun st =>
    ({| validTokenHashes := validTokenHashes st;
        logs := logs st ++ [mkLog lvl msg d];
        invocations := invocations st |}, Returns tt).

Definition addTokenHash (h : string) : M unit :=
  fun st =>
    ({| validTokenHashes := {[h]} ∪ validTokenHashes st;
        logs := logs st;
        invocations := invocations st |}, Returns tt).

Definition hasTokenHash (h : string) : M bool :=
  fun st => (st, Returns (bool_decide (h ∈ validTokenHashes st))).

(** Property read [v.k] for the names the gateway reads ([jsonrpc], [id],
    [method], [params], [name], [arguments], [isError]): [TypeError] on
    [null] and [undefined], the own property of an object, [undefined] on
    arrays and primitives (none of these names is built in there). *)
Definition get (v : JValue) (k : string) : M JValue :=
  match v with
  | JUndefined | JNull =>
      throw (ErrorObj ("Cannot read properties of " +:+ nullishText v
                         +:+ " (reading '" +:+ k +:+ "')"))
  | JObj m => ret (default JUndefined (m !! k))
  | _ => ret JUndefined
  end.

(** A pattern [const { k } = v]: the same read, with the [TypeError] of a
    destructuring. *)
Definition destructure (v : JValue) (expr k : string) : M JValue :=
  match v with
  | JUndefined | JNull =>
      throw (ErrorObj ("Cannot destructure property '" +:+ k +:+ "' of '"
                         +:+ expr +:+ "' as it is " +:+ nullishText v +:+ "."))
  | _ => get v k
  end.

(** The pure read [v.k] of a value that is not [null] or [undefined]. *)
Definition field (k : string) (v : JValue) : JValue :=
  match v with
  | JObj m => default JUndefined (m !! k)
  | _ => JUndefined
  end.

(** [v] is [null] or [undefined]. The body parsers of [setupServer]
    deliver an object or an array, never such a value. *)
Definition nullish (v : JValue) : bool :=
  match v with
  | JUndefined | JNull => true
  | _ => false
  end.

(** Optional chaining [v?.k]. *)
Definition get_opt (v : JValue) (k : string) : M JValue :=
  match v with
  | JUndefined | JNull => ret JUndefined
  | _ => get v k
  end.

(** The own enumerable properties that [...v] copies into an object
    literal: those of an object, the indices of an array or of a string,
    nothing for the other values. *)
Definition indexed (xs : list JValue) : gmap string JValue :=
  list_to_map (imap (fun i x => (pretty i, x)) xs).

Definition own_properties (v : JValue) : gmap string JValue :=
  match v with
  | JObj m => m
  | JArr xs => indexed xs
  | JStr s => indexed (map (fun c => JStr (String c "")) (list_ascii_of_string s))
  | _ => ∅
  end.

(** [{ ...base, ...v }] where [base] holds the properties written before
    the spread: the spread properties overwrite them. *)
Definition spread (base : gmap string JValue) (v : JValue) : gmap string JValue :=
  own_properties v ∪ base.

(** ** The collaborators *)

(** What the gateway uses of the runtime and of the MCP SDK: the
    hexadecimal SHA-256 digest
    [crypto.createHash('sha256').update(s).digest('hex')], the [stack] an
    error carries, the [message] of [new McpError(code, message)], and the
    text of a number beyond the safe integers (where the runtime rounds
    and, from 1e21, switches to the exponent form). *)
Class Runtime : Type := {
  sha256_hex : string → string;
  stack_of : JsError → string;
  mcpErrorMessage : Z → string → string;
  numberToString : Z → string
}.

(** [String(n)] for a number: the decimal digits of a safe integer, what
    the runtime prints otherwise. *)
Definition numberText `{Runtime} (n : Z) : string :=
  if (Z.abs n <=? 2 ^ 53)%Z then pretty n else numberToString n.

(** The message of the [TypeError] of a conversion that finds no
    primitive. *)
Definition cannotConvert : string := "Cannot convert object to primitive value".

(** The template-literal conversion of a value, [`${v}`], and [String(v)]:
    [None] where it throws a [TypeError]. An object converts through the
    inherited [toString], to ["[object Object]"], unless it has a
    property [toString] of its own: a parsed value is never callable, and
    the inherited [valueOf] gives back the object, so the conversion
    throws. An array converts through [join], element by element. *)
Fixpoint to_template `{Runtime} (v : JValue) {struct v} : option string :=
  match v with
  | JUndefined => Some "undefined"
  | JNull => Some "null"
  | JBool true => Some "true"
  | JBool false => Some "false"
  | JNum n => Some (numberText n)
  | JStr s => Some s
  | JArr xs =>
      Str.join "," <$>
        (fix elements (xs : list JValue) : option (list string) :=
           match xs with
           | [] => Some []
           | x :: rest =>
               match (match x with
                      | JUndefined | JNull => Some ""
                      | _ => to_template x
                      end), elements rest with
               | Some t, Some ts => Some (t :: ts)
               | _, _ => None
               end
           end) xs
  | JObj m =>
      match m !! "toString" with
      | Some _ => None
      | None => Some "[object Object]"
      end
  end.

(** [`${v}`] inside a computation. *)
Definition template `{Runtime} (v : JValue) : M string :=
  match to_template v with
  | Some t => mret t
  | None => throw (ErrorObj cannotConvert)
  end.

(** [error instanceof Error ? error.message : 'Unknown error']. *)
Definition error_message `{Runtime} (e : JsError) : string :=
  match e with
  | McpError c m => mcpErrorMessage c m
  | ErrorObj m => m
  | Thrown _ => "Unknown error"
  end.

(** [error instanceof Error ? error.message : String(error)]: [None]
    where [String(error)] throws. *)
Definition error_message_or_string `{Runtime} (e : JsError) : option string :=
  match e with
  | McpError c m => Some (mcpErrorMessage c m)
  | ErrorObj m => Some m
  | Thrown v => to_template v
  end.

Definition error_text `{Runtime} (e : JsError) : M string :=
  match error_message_or_string e with
  | Some t => mret t
  | None => throw (ErrorObj cannotConvert)
  end.

(** What the gateway imports from [mcp-core.js]: the tool catalog, the
    version and the two tool implementations. A tool is called with one
    argument and either returns its result or throws. *)
Class McpCore : Type := {
  AIRBNB_TOOLS : list JValue;
  VERSION : string;
  handleAirbnbSearch : JValue → Outcome JValue;
  handleAirbnbListingDetails : JValue → Outcome JValue
}.

(** Calling a tool implementation: the call is recorded as the
    [ToolInvocation] that reached the collaborator. *)
Definition invoke (name : string) (impl : JValue → Outcome JValue)
    (args : JValue) : M JValue :=
  fun st =>
    ({| validTokenHashes := validTokenHashes st;
        logs := logs st;
        invocations := invocations st ++ [mkInvocation name args] |},
     impl args).

(** ** HTTP requests and responses *)

Record Request : Type := mkRequest {
  method : string;
  path : string;
  authorization : option string;      (* req.headers.authorization *)
  userAgent : option string;          (* req.get('User-Agent') *)
  ip : option string;                 (* req.ip *)
  body : JValue;                      (* req.body *)
  params : gmap string string;        (* req.params *)
  user : option string                (* req.user.tokenHash *)
}.

(** [res.status(status).json(json)]; [res.json(json)] has status 200. *)
Record Response : Type := mkResponse {
  status : Z;
  json : JValue
}.

Definition opt_str (o : option string) : JValue :=
  match o with
  | Some s => JStr s
  | None => JUndefined
  end.

(** ** http-server.ts *)

Module HTTPMCPServer.
Section Gateway.
Context `{R : Runtime} `{C : McpCore}.

(** [hash.substring(0, 8) + '...'] *)
Definition hashPrefix (hash : string) : string := Str.take 8 hash +:+ "...".

(** One step of the [forEach] of [setupAuthentication]. *)
Definition loadToken (pat : string) : M unit :=
  if truthy (JStr (Str.trim pat)) then
    let hash := sha256_hex (Str.trim pat) in
    addTokenHash hash;;
    log "info" "Access token loaded" (obj [("tokenHash", JStr (hashPrefix hash))])
  else mret tt.

Fixpoint forEach {A} (f : A → M unit) (xs : list A) : M unit :=
  match xs with
  | [] => mret tt
  | x :: rest => f x;; forEach f rest
  end.

(** [process.env.MCP_ACCESS_TOKENS?.split(',') || []] *)
Definition accessTokens (env : option string) : list string :=
  match env with
  | Some s => Str.split "," s
  | None => []
  end.

Definition setupAuthentication (MCP_ACCESS_TOKENS : option string) : M unit :=
  let pats := accessTokens MCP_ACCESS_TOKENS in
  (if (length pats =? 0)%nat then
     log "warn" "No access tokens configured. Server will reject all requests."
       JUndefined
   else mret tt);;
  forEach loadToken pats.

(** The middleware either answers itself or sets [req.user] and calls
    [next()]. *)
Inductive AuthResult : Type :=
  | Rejected (res : Response)
  | Next (req : Request).

Definition authenticateToken (req : Request) : M AuthResult :=
  match authorization req with
  | Some authHeader =>
      if negb (truthy (JStr authHeader))
         || negb (Str.startsWith "Bearer " authHeader) then
        mret (Rejected (mkResponse 401 (obj [
          ("error", JStr "Missing or invalid authorization header. Expected: Bearer <token>")])))
      else
        let token := Str.drop 7 authHeader in
        let tokenHash := sha256_hex token in
        known ← hasTokenHash tokenHash;
        if negb known then
          log "warn" "Invalid token attempt" (obj [
            ("tokenHash", JStr (hashPrefix tokenHash));
            ("ip", opt_str (ip req))]);;
          mret (Rejected (mkResponse 401 (obj [
            ("error", JStr "Invalid access token")])))
        else
          mret (Next {| method := method req; path := path req;
                        authorization := authorization req;
                        userAgent := userAgent req; ip := ip req;
                        body := body req; params := params req;
                        user := Some tokenHash |})
  | None =>
      mret (Rejected (mkResponse 401 (obj [
        ("error", JStr "Missing or invalid authorization header. Expected: Bearer <token>")])))
  end.

Definition callTool (name args : JValue) : M JValue :=
  if is_str name "airbnb_search" then
    invoke "airbnb_search" handleAirbnbSearch args
  else if is_str name "airbnb_listing_details" then
    invoke "airbnb_listing_details" handleAirbnbListingDetails args
  else
    text ← template name;
    throw (McpError (code_number MethodNotFound) ("Unknown tool: " +:+ text)).

Definition handleMCPRequest (req : Request) : M Response :=
  try_catch
    (let mcpRequest := body req in
     jsonrpc ← get mcpRequest "jsonrpc";
     if negb (truthy jsonrpc) || negb (is_str jsonrpc "2.0") then
       id ← get mcpRequest "id";
       mret (mkResponse 400 (obj [
         ("jsonrpc", JStr "2.0");
         ("id", js_or id JNull);
         ("error", obj [
            ("code", JNum (code_number InvalidRequest));
            ("message", JStr "Invalid JSON-RPC version")])]))
     else
       meth ← get mcpRequest "method";
       result ←
         (if is_str meth "tools/list" then
            mret (obj [("tools", JArr AIRBNB_TOOLS)])
          else if is_str meth "tools/call" then
            ps ← get mcpRequest "params";
            name ← get_opt ps "name";
            if negb (truthy name) then
              throw (McpError (code_number InvalidParams) "Tool name is required")
            else
              args ← get ps "arguments";
              callTool name (js_or args (JObj ∅))
          else
            text ← template meth;
            throw (McpError (code_number MethodNotFound)
                     ("Method not found: " +:+ text)));
       id ← get mcpRequest "id";
       mret (mkResponse 200 (obj [
         ("jsonrpc", JStr "2.0");
         ("id", id);
         ("result", result)])))
    (fun error =>
       id ← get (body req) "id";
       mret (mkResponse 400 (obj [
         ("jsonrpc", JStr "2.0");
         ("id", js_or id JNull);
         ("error", obj [
            ("code", JNum (error_code_or InternalError error));
            ("message", JStr (error_message error))])]))).

(** [POST /api/tools/list] *)
Definition handleListTools (req : Request) : M Response :=
  try_catch
    (mret (mkResponse 200 (obj [("tools", JArr AIRBNB_TOOLS)])))
    (fun error =>
       mret (mkResponse 500 (obj [("error", JStr (error_message error))]))).

(** [POST /api/tools/call] *)
Definition handleCallTool (req : Request) : M Response :=
  try_catch
    (name ← destructure (body req) "req.body" "name";
     args ← get (body req) "arguments";
     if negb (truthy name) then
       mret (mkResponse 400 (obj [("error", JStr "Tool name is required")]))
     else
       result ← callTool name (js_or args (JObj ∅));
       mret (mkResponse 200 result))
    (fun error =>
       mret (mkResponse 400 (obj [("error", JStr (error_message error))]))).

(** [POST /api/airbnb/search] *)
Definition handleAirbnbSearchAPI (req : Request) : M Response :=
  try_catch
    (result ← invoke "airbnb_search" handleAirbnbSearch (body req);
     mret (mkResponse 200 result))
    (fun error =>
       mret (mkResponse 500 (obj [("error", JStr (error_message error))]))).

(** [const { id } = req.params; const params = { id, ...req.body }] *)
Definition listingParams (req : Request) : JValue :=
  let id := opt_str (params req !! "id") in
  JObj (spread {["id" := id]} (body req)).

(** [POST /api/airbnb/listing/:id] *)
Definition handleAirbnbListingAPI (req : Request) : M Response :=
  try_catch
    (result ← invoke "airbnb_listing_details" handleAirbnbListingDetails
                (listingParams req);
     mret (mkResponse 200 result))
    (fun error =>
       mret (mkResponse 500 (obj [("error", JStr (error_message error))]))).

(** [GET /health]; [timestamp] is [new Date().toISOString()]. *)
Definition health (timestamp : string) : M Response :=
  mret (mkResponse 200 (obj [
    ("status", JStr "healthy");
    ("version", JStr VERSION);
    ("timestamp", JStr timestamp);
    ("service", JStr "airbnb-mcp-server")])).

(** The 404 handler. *)
Definition notFound : M Response :=
  mret (mkResponse 404 (obj [
    ("error", JStr "Not Found");
    ("message", JStr "The requested endpoint does not exist");
    ("availableEndpoints", JArr [
       JStr "GET /health";
       JStr "POST /mcp";
       JStr "POST /api/tools/list";
       JStr "POST /api/tools/call";
       JStr "POST /api/airbnb/search";
       JStr "POST /api/airbnb/listing/:id"])])).

(** [err.message] as the error handler reads it. *)
Definition message_of (err : JsError) : JValue :=
  match err with
  | McpError c m => JStr (mcpErrorMessage c m)
  | ErrorObj m => JStr m
  | Thrown (JObj m) => default JUndefined (m !! "message")
  | Thrown _ => JUndefined
  end.

(** The terminal error handler: what Express passes an error to. *)
Definition errorHandler (err : JsError) (req : Request) : M Response :=
  log "error" "HTTP Server Error" (obj [
    ("error", message_of err);
    ("stack", JStr (stack_of err));
    ("path", JStr (path req));
    ("method", JStr (method req))]);;
  mret (mkResponse 500 (obj [
    ("error", JStr "Internal Server Error");
    ("message", JStr "An unexpected error occurred")])).

(** The request logger installed by [setupServer]. *)
Definition requestLogger (req : Request) : M unit :=
  log "info" "HTTP Request" (obj [
    ("method", JStr (method req));
    ("path", JStr (path req));
    ("userAgent", opt_str (userAgent req));
    ("ip", opt_str (ip req))]).

(** [app.post(route, this.authenticateToken, handler)] *)
Definition authenticated (handler : Request → M Response) (req : Request)
    : M Response :=
  a ← authenticateToken req;
  match a with
  | Rejected res => mret res
  | Next req' => handler req'
  end.

(** The entry of the routing table of [setupRoutes] that Express selects
    for a request; [PostListing id] carries the decoded path parameter,
    [NoRoute] is a request that matches no entry. A path whose parameter
    cannot be decoded selects no entry either: that is an error of the
    router, outside this type. *)
Inductive Route : Type :=
  | GetHealth
  | PostMcp
  | PostToolsList
  | PostToolsCall
  | PostSearch
  | PostListing (id : string)
  | NoRoute.

(** A request as it enters the middleware chain: [parsedBody] is what the
    body parsers of [setupServer] make of the payload, a value or an error
    handed to [next]; [arrival] is the clock reading of [/health]. *)
Record Incoming : Type := mkIncoming {
  in_route : Route;
  in_method : string;
  in_path : string;
  in_authorization : option string;
  in_userAgent : option string;
  in_ip : option string;
  parsedBody : Outcome JValue;
  arrival : string
}.

Definition request_of (inc : Incoming) (b : JValue) : Request :=
  {| method := in_method inc; path := in_path inc;
     authorization := in_authorization inc;
     userAgent := in_userAgent inc; ip := in_ip inc;
     body := b;
     params := match in_route inc with
               | PostListing id => {["id" := id]}
               | _ => ∅
               end;
     user := None |}.

(** The middleware chain: body parsing, request logging, the routes, the
    404 handler; an error handed to [next] skips to the error handler. An
    outcome [Throws] of [app] is a rejection of a handler's promise, which
    Express 4 does not observe: no response is sent. *)
Definition app (inc : Incoming) : M Response :=
  match parsedBody inc with
  | Throws err => errorHandler err (request_of inc JUndefined)
  | Returns b =>
      let req := request_of inc b in
      requestLogger req;;
      match in_route inc with
      | GetHealth => health (arrival inc)
      | PostMcp => authenticated handleMCPRequest req
      | PostToolsList => authenticated handleListTools req
      | PostToolsCall => authenticated handleCallTool req
      | PostSearch => authenticated handleAirbnbSearchAPI req
      | PostListing _ => authenticated handleAirbnbListingAPI req
      | NoRoute => notFound
      end
  end.

End Gateway.
End HTTPMCPServer.

(** ** index.ts: the stdio handlers *)

Module Stdio.
Section Handlers.
Context `{R : Runtime} `{C : McpCore}.

(** The [ListToolsRequestSchema] handler. *)
Definition listToolsHandler : M JValue :=
  mret (obj [("tools", JArr AIRBNB_TOOLS)]).

(** The [CallToolRequestSchema] handler. [startTime] and [endTime] are the
    two readings of [Date.now()], [timestamp] is
    [new Date().toISOString()], and [stringify] is
    [JSON.stringify(_, null, 2)]. *)
Definition callToolHandler (stringify : JValue → string)
    (startTime endTime : Z) (timestamp : string) (request : JValue)
    : M JValue :=
  ps ← get request "params";
  let duration := JStr (pretty (endTime - startTime)%Z +:+ "ms") in
  try_catch
    (name ← get ps "name";
     (if negb (truthy name) then
        throw (McpError (code_number InvalidParams) "Tool name is required")
      else mret tt);;
     args ← get ps "arguments";
     (if negb (truthy args) then
        throw (McpError (code_number InvalidParams) "Tool arguments are required")
      else mret tt);;
     log "info" "Tool call received" (obj [("tool", name); ("arguments", args)]);;
     result ←
       (if is_str name "airbnb_search" then
          invoke "airbnb_search" handleAirbnbSearch args
        else if is_str name "airbnb_listing_details" then
          invoke "airbnb_listing_details" handleAirbnbListingDetails args
        else
          text ← template name;
          throw (McpError (code_number MethodNotFound)
                   ("Unknown tool: " +:+ text)));
     isError ← get result "isError";
     log "info" "Tool call completed" (obj [
       ("tool", name);
       ("duration", duration);
       ("success", JBool (negb (truthy isError)))]);;
     mret result)
    (fun error =>
       name ← get ps "name";
       text ← error_text error;
       log "error" "Tool call failed" (obj [
         ("tool", name);
         ("duration", duration);
         ("error", JStr text)]);;
       match error with
       | McpError _ _ => throw error
       | _ =>
           mret (obj [
             ("content", JArr [obj [
                ("type", JStr "text");
                ("text", JStr (stringify (obj [
                   ("error", JStr text);
                   ("timestamp", JStr timestamp)])))]]);
             ("isError", JBool true)])
       end).

End Handlers.
End Stdio.

(** ** Sample collaborators

    Concrete instances of the interfaces, on which the statements below
    are evaluated. [sampleRuntime] tags its input instead of hashing it;
    [sampleCore] has a search tool that reports an application-level
    failure and a detail tool that echoes its arguments; the tools of
    [failingCore] throw. *)

Definition sampleRuntime : Runtime :=
  {| sha256_hex := fun s => "sha256:" +:+ s;
     stack_of := fun _ => "SyntaxError at JSON.parse (<anonymous>)";
     mcpErrorMessage := fun code msg =>
       "MCP error " +:+ pretty code +:+ ": " +:+ msg;
     numberToString := fun n => pretty n |}.

(** A stand-in for [JSON.stringify(_, null, 2)]. *)
Definition sampleStringify (v : JValue) : string :=
  match v with
  | JObj m =>
      match m !! "error" with
      | Some (JStr t) => "{ error: " +:+ t +:+ " }"
      | _ => "{}"
      end
  | _ => "null"
  end.

Definition sampleTools : list JValue :=
  [ obj [("name", JStr "airbnb_search")];
    obj [("name", JStr "airbnb_listing_details")] ].

Definition sampleCore : McpCore :=
  {| AIRBNB_TOOLS := sampleTools;
     VERSION := "0.1.3";
     handleAirbnbSearch := fun _ =>
       Returns (obj [("content", JArr []); ("isError", JBool true)]);
     handleAirbnbListingDetails := fun args =>
       Returns (obj [("content", JArr [args]); ("isError", JBool false)]) |}.

Definition failingCore : McpCore :=
  {| AIRBNB_TOOLS := sampleTools;
     VERSION := "0.1.3";
     handleAirbnbSearch := fun _ => Throws (ErrorObj "connect ECONNREFUSED 10.0.0.7:443");
     handleAirbnbListingDetails := fun _ => Throws (ErrorObj "connect ECONNREFUSED 10.0.0.7:443") |}.

(** A request with the given body and path parameters. *)
Definition post (pth : string) (ps : gmap string string) (b : JValue) : Request :=
  {| method := "POST"; path := pth; authorization := None; userAgent := None;
     ip := None; body := b; params := ps; user := None |}.

(** A [POST /mcp] request whose body is the object with the given
    properties. *)
Definition rpc (kvs : list (string * JValue)) : Request :=
  post "/mcp" ∅ (obj kvs).

Import HTTPMCPServer.

(** ** Notions used in the statements *)

(** [t] is one of the tokens that [setupAuthentication] loads from the
    value of [MCP_ACCESS_TOKENS]: the trimmed form of an entry that is not
    empty after trimming. *)
Definition loaded (env : option string) (t : string) : Prop :=
  ∃ pat, pat ∈ accessTokens env ∧ Str.trim pat ≠ "" ∧ Str.trim pat = t.

(** The digest does not confuse [t] with a loaded token. *)
Definition collisionFree `{Runtime} (env : option string) (t : string) : bool :=
  forallb
    (fun pat =>
       implb (truthy (JStr (Str.trim pat))
              && String.eqb (sha256_hex (Str.trim pat)) (sha256_hex t))
             (String.eqb (Str.trim pat) t))
    (accessTokens env).

(** The two 401 bodies of [authenticateToken]. *)
Definition missingHeader : Response :=
  mkResponse 401 (obj [
    ("error", JStr "Missing or invalid authorization header. Expected: Bearer <token>")]).

Definition invalidToken : Response :=
  mkResponse 401 (obj [("error", JStr "Invalid access token")]).

(** [req] after [req.user = { tokenHash }]. *)
Definition withUser (req : Request) (tokenHash : string) : Request :=
  {| method := method req; path := path req;
     authorization := authorization req;
     userAgent := userAgent req; ip := ip req;
     body := body req; params := params req;
     user := Some tokenHash |}.

(** The log lines of [setupAuthentication] and [authenticateToken]. *)
Definition noTokensWarning : LogEntry :=
  mkLog "warn" "No access tokens configured. Server will reject all requests."
    JUndefined.

Definition tokenLoadedLine (hash : string) : LogEntry :=
  mkLog "info" "Access token loaded" (obj [("tokenHash", JStr (hashPrefix hash))]).

Definition invalidAttemptLine (hash : string) (ip : option string) : LogEntry :=
  mkLog "warn" "Invalid token attempt" (obj [
    ("tokenHash", JStr (hashPrefix hash));
    ("ip", opt_str ip)]).

(** The lines that loading the entries [pats] writes, in order. *)
Definition loadLines `{Runtime} (pats : list string) : list LogEntry :=
  flat_map
    (fun pat =>
       if truthy (JStr (Str.trim pat))
       then [tokenLoadedLine (sha256_hex (Str.trim pat))] else [])
    pats.

(** The two envelopes [handleMCPRequest] replies with. *)
Definition mcpResult (id result : JValue) : Response :=
  mkResponse 200 (obj [
    ("jsonrpc", JStr "2.0");
    ("id", id);
    ("result", result)]).

Definition mcpError (id : JValue) (code : Z) (msg : string) : Response :=
  mkResponse 400 (obj [
    ("jsonrpc", JStr "2.0");
    ("id", js_or id JNull);
    ("error", obj [("code", JNum code); ("message", JStr msg)])]).

(** The body of a handler that echoes the message of what it caught. *)
Definition errorBody `{Runtime} (e : JsError) : JValue :=
  obj [("error", JStr (error_message e))].

(** The reply of [GET /health] at a clock reading, and the reply of the
    404 handler. *)
Definition healthReply `{McpCore} (timestamp : string) : Response :=
  mkResponse 200 (obj [
    ("status", JStr "healthy");
    ("version", JStr VERSION);
    ("timestamp", JStr timestamp);
    ("service", JStr "airbnb-mcp-server")]).

Definition notFoundReply : Response :=
  mkResponse 404 (obj [
    ("error", JStr "Not Found");
    ("message", JStr "The requested endpoint does not exist");
    ("availableEndpoints", JArr [
       JStr "GET /health";
       JStr "POST /mcp";
       JStr "POST /api/tools/list";
       JStr "POST /api/tools/call";
       JStr "POST /api/airbnb/search";
       JStr "POST /api/airbnb/listing/:id"])]).

(** The fixed reply of the terminal error handler. *)
Definition genericError : Response :=
  mkResponse 500 (obj [
    ("error", JStr "Internal Server Error");
    ("message", JStr "An unexpected error occurred")]).

(** The line the terminal error handler logs. *)
Definition serverErrorLine `{Runtime} (err : JsError) (pth meth : string) : LogEntry :=
  mkLog "error" "HTTP Server Error" (obj [
    ("error", message_of err);
    ("stack", JStr (stack_of err));
    ("path", JStr pth);
    ("method", JStr meth)]).

(** The catalog as [tools/list] publishes it. *)
Definition catalog `{McpCore} : JValue := obj [("tools", JArr AIRBNB_TOOLS)].

(** [v.length] of an array. *)
Definition js_length (v : JValue) : option nat :=
  match v with
  | JArr xs => Some (length xs)
  | _ => None
  end.

(** A computation that leaves the token set as it found it. *)
Definition preservesTokens {A} (c : M A) : Prop :=
  ∀ st, validTokenHashes (c st).1 = validTokenHashes st.

(** A request that carries only an [Authorization] header. *)
Definition withHeader (h : string) : Request :=
  {| method := "POST"; path := "/mcp"; authorization := Some h;
     userAgent := None; ip := None; body := JObj ∅; params := ∅;
     user := None |}.

(** ** Notions used in the further statements *)

(** A computation that leaves the component [f] of the state alone. *)
Definition keeps {X A} (f : ServerState → X) (c : M A) : Prop :=
  ∀ st, f (c st).1 = f st.

(** The tool registry as a lookup: the implementation that the [switch]
    of [callTool] and of the stdio handler selects for a name. *)
Definition registeredTool `{McpCore} (name : JValue)
    : option (string * (JValue → Outcome JValue)) :=
  if is_str name "airbnb_search" then
    Some ("airbnb_search", handleAirbnbSearch)
  else if is_str name "airbnb_listing_details" then
    Some ("airbnb_listing_details", handleAirbnbListingDetails)
  else None.

(** A computation that calls at most one tool, a registered one. *)
Definition callsAtMostOneTool {A} (c : M A) : Prop :=
  ∀ st,
    invocations (c st).1 = invocations st
    ∨ ∃ i, invocations (c st).1 = invocations st ++ [i]
           ∧ (tool i = "airbnb_search" ∨ tool i = "airbnb_listing_details").

(** The line of the request logger. *)
Definition requestLine (inc : Incoming) : LogEntry :=
  mkLog "info" "HTTP Request" (obj [
    ("method", JStr (in_method inc));
    ("path", JStr (in_path inc));
    ("userAgent", opt_str (in_userAgent inc));
    ("ip", opt_str (in_ip inc))]).

(** A route behind [authenticateToken]. *)
Definition protected (r : Route) : bool :=
  match r with
  | GetHealth | NoRoute => false
  | _ => true
  end.

(** The lines of the stdio handler. *)
Definition receivedLine (name args : JValue) : LogEntry :=
  mkLog "info" "Tool call received" (obj [("tool", name); ("arguments", args)]).

Definition completedLine (name : JValue) (ms : Z) (success : bool) : LogEntry :=
  mkLog "info" "Tool call completed" (obj [
    ("tool", name);
    ("duration", JStr (pretty ms +:+ "ms"));
    ("success", JBool success)]).

Definition failedLine (name : JValue) (ms : Z) (msg : string) : LogEntry :=
  mkLog "error" "Tool call failed" (obj [
    ("tool", name);
    ("duration", JStr (pretty ms +:+ "ms"));
    ("error", JStr msg)]).

(** The result the stdio handler returns for a failure that is not an
    [McpError]. *)
Definition errorPayload (stringify : JValue → string) (msg timestamp : string)
    : JValue :=
  obj [
    ("content", JArr [obj [
       ("type", JStr "text");
       ("text", JStr (stringify (obj [
          ("error", JStr msg);
          ("timestamp", JStr timestamp)])))]]);
    ("isError", JBool true)].

(** The characters of a string. *)
Definition chars (s : string) : list ascii := list_ascii_of_string s.

(** A collaborator whose tools give up with an [McpError] that carries the
    SDK's request-timeout code. *)
Definition timeoutCore : McpCore :=
  {| AIRBNB_TOOLS := sampleTools;
     VERSION := "0.1.3";
     handleAirbnbSearch := fun _ => Throws (McpError (-32001) "Request timed out");
     handleAirbnbListingDetails := fun _ =>
       Throws (McpError (-32001) "Request timed out") |}.

(** The state after one more log line, after one more tool call. *)
Definition withLog (st : ServerState) (l : LogEntry) : ServerState :=
  {| validTokenHashes := validTokenHashes st;
     logs := logs st ++ [l];
     invocations := invocations st |}.

Definition withInvocation (st : ServerState) (i : ToolInvocation) : ServerState :=
  {| validTokenHashes := validTokenHashes st;
     logs := logs st;
     invocations := invocations st ++ [i] |}.

(** How the [catch] of the stdio handler ends: it logs the failure, then
    rethrows an [McpError] and returns anything else as an error payload. *)
Definition stdioFailure `{Runtime} (stringify : JValue → string)
    (name : JValue) (ms : Z) (timestamp : string) (e : JsError)
    (st : ServerState) : ServerState * Outcome JValue :=
  match error_message_or_string e with
  | Some text =>
      (withLog st (failedLine name ms text),
       match e with
       | McpError _ _ => Throws e
       | _ => Returns (errorPayload stringify text timestamp)
       end)
  | None => (st, Throws (ErrorObj cannotConvert))
  end.

(** A collaborator whose tools return [undefined]. *)
Definition silentCore : McpCore :=
  {| AIRBNB_TOOLS := sampleTools;
     VERSION := "0.1.3";
     handleAirbnbSearch := fun _ => Returns JUndefined;
     handleAirbnbListingDetails := fun _ => Returns JUndefined |}.

(** An incoming [POST] on a route, with an [Authorization] header and a
    parsed body. *)
Definition incoming (r : Route) (pth : string) (auth : option string)
    (b : JValue) : Incoming :=
  {| in_route := r; in_method := "POST"; in_path := pth;
     in_authorization := auth; in_userAgent := Some "curl/8.5.0";
     in_ip := Some "203.0.113.9"; parsedBody := Returns b;
     arrival := "2025-01-01T00:00:00.000Z" |}.

(** A stdio [tools/call] request with the given params. *)
Definition stdioCall (ps : list (string * JValue)) : JValue :=
  obj [("method", JStr "tools/call"); ("params", obj ps)].

(** The params of a search in Paris. *)
Definition parisParams : list (string * JValue) :=
  [("name", JStr "airbnb_search");
   ("arguments", obj [("location", JStr "Paris")])].

(** The handler that [setupRoutes] registers behind [authenticateToken]
    for a route. *)
Definition routeHandler `{Runtime} `{McpCore} (r : Route)
    : option (Request → M Response) :=
  match r with
  | PostMcp => Some handleMCPRequest
  | PostToolsList => Some handleListTools
  | PostToolsCall => Some handleCallTool
  | PostSearch => Some handleAirbnbSearchAPI
  | PostListing _ => Some handleAirbnbListingAPI
  | GetHealth | NoRoute => None
  end.

(** * Properties *)

(** ** Running a computation *)

Lemma run_bind {A B} (c : M A) (k : A → M B) st :
  (c ≫= k) st =
  match c st with
  | (st', Returns a) => k a st'
  | (st', Throws e) => (st', Throws e)
  end.
Proof. reflexivity. Qed.

Lemma run_ret {A} (a : A) st : (mret a : M A) st = (st, Returns a).
Proof. reflexivity. Qed.

Lemma run_get_obj m k st :
  get (JObj m) k st = (st, Returns (default JUndefined (m !! k))).
Proof. reflexivity. Qed.

Lemma get_field v k : nullish v = false → get v k = mret (field k v).
Proof. by destruct v. Qed.

Lemma destructure_field v e k :
  nullish v = false → destructure v e k = mret (field k v).
Proof. by destruct v. Qed.

Lemma get_opt_field v k : get_opt v k = mret (field k v).
Proof. by destruct v. Qed.

Lemma truthy_not_nullish v : truthy v = true → nullish v = false.
Proof. by destruct v. Qed.

Lemma run_template `{Runtime} v st :
  template v st =
  match to_template v with
  | Some text => (st, Returns text)
  | None => (st, Throws (ErrorObj cannotConvert))
  end.
Proof. unfold template. by destruct (to_template v). Qed.

Lemma run_error_text `{Runtime} e st :
  error_text e st =
  match error_message_or_string e with
  | Some text => (st, Returns text)
  | None => (st, Throws (ErrorObj cannotConvert))
  end.
Proof. unfold error_text. by destruct (error_message_or_string e). Qed.

Lemma to_template_string `{Runtime} s : to_template (JStr s) = Some s.
Proof. reflexivity. Qed.

Lemma run_invoke name impl args st :
  invoke name impl args st =
  ({| validTokenHashes := validTokenHashes st;
      logs := logs st;
      invocations := invocations st ++ [mkInvocation name args] |},
   impl args).
Proof. reflexivity. Qed.

(** ** Strings *)

Lemma prefix_append p t : String.prefix p (p +:+ t) = true.
Proof.
  induction p as [|c p IH]; simpl.
  - by destruct t.
  - destruct (ascii_dec c c) as [_|Hne]; [exact IH | by destruct Hne].
Qed.

Lemma drop_append p t : Str.drop (String.length p) (p +:+ t) = t.
Proof. induction p as [|c p IH]; simpl; [done | exact IH]. Qed.

Lemma prefix_split p s :
  String.prefix p s = true → s = p +:+ Str.drop (String.length p) s.
Proof.
  revert s. induction p as [|c p IH]; intros [|d s] Hp; simpl in *;
    try done.
  destruct (ascii_dec c d) as [->|_]; [| done].
  change (String d s = String d (p +:+ Str.drop (String.length p) s)).
  f_equal. by apply IH.
Qed.

Lemma startsWith_Bearer h :
  Str.startsWith "Bearer " h = true ↔ ∃ t, h = "Bearer " +:+ t.
Proof.
  unfold Str.startsWith. split.
  - intros Hp. exists (Str.drop 7 h). exact (prefix_split "Bearer " h Hp).
  - intros [t ->]. apply prefix_append.
Qed.

Lemma truthy_str s : truthy (JStr s) = true ↔ s ≠ "".
Proof.
  simpl. destruct (String.eqb_spec s ""); simpl; split; congruence.
Qed.

Lemma truthy_Bearer t : truthy (JStr ("Bearer " +:+ t)) = true.
Proof. reflexivity. Qed.

(** Being a loaded token is decidable: the entries are finitely many. *)
Lemma classic_loaded env t : loaded env t ∨ ¬ loaded env t.
Proof.
  unfold loaded. induction (accessTokens env) as [|pat pats IH].
  - right. intros (pat & Hin & _). by apply elem_of_nil in Hin.
  - destruct IH as [(p' & Hin & Hne & Heq) | Hno].
    + left. exists p'. split; [by apply list_elem_of_further | done].
    + destruct (decide (Str.trim pat = t)) as [Heq | Hneq].
      * destruct (decide (Str.trim pat = "")) as [He | Hne].
        -- right. intros (p' & Hin & Hne' & Heq').
           apply elem_of_cons in Hin as [-> | Hin]; [done |].
           apply Hno. by exists p'.
        -- left. exists pat. split; [apply list_elem_of_here | done].
      * right. intros (p' & Hin & Hne' & Heq').
        apply elem_of_cons in Hin as [-> | Hin]; [done |].
        apply Hno. by exists p'.
Qed.

(** ** The token set is read-only after start-up *)

Lemma pt_ret {A} (a : A) : preservesTokens (mret a : M A).
Proof. by intros st. Qed.

Lemma pt_throw {A} e : preservesTokens (throw e : M A).
Proof. by intros st. Qed.

Lemma pt_bind {A B} (c : M A) (k : A → M B) :
  preservesTokens c → (∀ a, preservesTokens (k a)) → preservesTokens (c ≫= k).
Proof.
  intros Hc Hk st. rewrite run_bind. specialize (Hc st).
  destruct (c st) as [st' [a|e]]; cbn [fst] in *; [| done].
  by rewrite Hk.
Qed.

Lemma pt_try_catch {A} (c : M A) (h : JsError → M A) :
  preservesTokens c → (∀ e, preservesTokens (h e)) →
  preservesTokens (try_catch c h).
Proof.
  intros Hc Hh st. unfold try_catch. specialize (Hc st).
  destruct (c st) as [st' [a|e]]; cbn [fst] in *; [done |].
  by rewrite Hh.
Qed.

Lemma pt_log lvl msg d : preservesTokens (log lvl msg d).
Proof. by intros st. Qed.

Lemma pt_invoke name impl args : preservesTokens (invoke name impl args).
Proof. by intros st. Qed.

Lemma pt_get v k : preservesTokens (get v k).
Proof. by destruct v. Qed.

Lemma pt_get_opt v k : preservesTokens (get_opt v k).
Proof. by destruct v. Qed.

Lemma pt_destructure v e k : preservesTokens (destructure v e k).
Proof. by destruct v. Qed.

Lemma pt_hasTokenHash h : preservesTokens (hasTokenHash h).
Proof. by intros st. Qed.

Lemma pt_template `{Runtime} v : preservesTokens (template v).
Proof. intros st. rewrite run_template. by destruct (to_template v). Qed.

Lemma pt_error_text `{Runtime} e : preservesTokens (error_text e).
Proof. intros st. rewrite run_error_text. by destruct (error_message_or_string e). Qed.

Create HintDb tokens.
#[export] Hint Resolve pt_ret pt_throw pt_log pt_invoke pt_get pt_get_opt
  pt_destructure pt_hasTokenHash pt_template pt_error_text : tokens.

(** Walks a handler along its binds, [try]/[catch] and branches. *)
Ltac preserves :=
  repeat first
    [ apply pt_bind; [| intros ?]
    | apply pt_try_catch; [| intros ?]
    | match goal with
      | |- preservesTokens (if ?b then _ else _) => destruct b
      | |- preservesTokens (match ?x with _ => _ end) => destruct x
      end
    | solve [auto with tokens] ].

Section Properties.
Context `{R : Runtime} `{C : McpCore}.

(** ** The listing alias *)

Lemma listingParams_id req :
  field "id" (listingParams req) =
  default (opt_str (params req !! "id")) (own_properties (body req) !! "id").
Proof.
  unfold listingParams, spread, field.
  rewrite lookup_union.
  destruct (own_properties (body req) !! "id") as [v|] eqn:E.
  - rewrite lookup_singleton_eq. done.
  - rewrite lookup_singleton_eq. done.
Qed.

Lemma handleAirbnbListingAPI_invocations req st :
  invocations (handleAirbnbListingAPI req st).1 =
  invocations st ++ [mkInvocation "airbnb_listing_details" (listingParams req)].
Proof.
  unfold handleAirbnbListingAPI, try_catch.
  rewrite run_bind, run_invoke.
  destruct (handleAirbnbListingDetails (listingParams req)); reflexivity.
Qed.

(** C1, as the code has it: the detail tool receives the path parameter
    merged with the body, [{ id, ...req.body }], so an [id] of the body
    overrides the path parameter; the path value is forwarded only when
    the body has no [id] of its own. *)
Theorem C1_listing_id_body_precedence req st pid :
  params req !! "id" = Some pid →
  ∃ args,
    invocations (handleAirbnbListingAPI req st).1 =
      invocations st ++ [mkInvocation "airbnb_listing_details" args]
    ∧ field "id" args =
        match own_properties (body req) !! "id" with
        | Some v => v
        | None => JStr pid
        end.
Proof.
  intros Hpid. exists (listingParams req). split.
  - apply handleAirbnbListingAPI_invocations.
  - rewrite listingParams_id, Hpid.
    destruct (own_properties (body req) !! "id"); reflexivity.
Qed.

(** ** The token store *)

Lemma run_loadToken pat st :
  loadToken pat st =
  if truthy (JStr (Str.trim pat)) then
    ({| validTokenHashes := {[sha256_hex (Str.trim pat)]} ∪ validTokenHashes st;
        logs := logs st ++ [tokenLoadedLine (sha256_hex (Str.trim pat))];
        invocations := invocations st |}, Returns tt)
  else (st, Returns tt).
Proof. unfold loadToken. destruct (truthy _); reflexivity. Qed.

Lemma forEach_loadToken pats st :
  ∃ hs,
    forEach loadToken pats st =
      ({| validTokenHashes := hs; logs := logs st ++ loadLines pats;
          invocations := invocations st |}, Returns tt)
    ∧ ∀ h, h ∈ hs ↔
        h ∈ validTokenHashes st
        ∨ ∃ pat, pat ∈ pats ∧ Str.trim pat ≠ "" ∧ h = sha256_hex (Str.trim pat).
Proof.
  revert st. induction pats as [|pat pats IH]; intros st.
  - exists (validTokenHashes st). split.
    + simpl. rewrite app_nil_r. by destruct st.
    + intros h. split; [by left |]. intros [Hh | (pat & Hin & _)]; [done |].
      by apply elem_of_nil in Hin.
  - cbn [forEach]. rewrite run_bind, run_loadToken.
    destruct (truthy (JStr (Str.trim pat))) eqn:Ht.
    + edestruct IH as (hs & -> & Hhs). exists hs. split.
      * cbn [loadLines flat_map logs invocations]. rewrite Ht.
        cbn [logs invocations]. by rewrite <- app_assoc.
      * intros h. rewrite Hhs. cbn [validTokenHashes].
        apply truthy_str in Ht. split.
        -- intros [Hh | (p' & Hin & Hne & ->)].
           ++ apply elem_of_union in Hh as [Hh | Hh]; [| by left].
              apply elem_of_singleton in Hh as ->. right. exists pat.
              split; [apply list_elem_of_here | done].
           ++ right. exists p'. split; [by apply list_elem_of_further | done].
        -- intros [Hh | (p' & Hin & Hne & ->)].
           ++ left. apply elem_of_union. by right.
           ++ apply elem_of_cons in Hin as [-> | Hin].
              ** left. apply elem_of_union. left. by apply elem_of_singleton.
              ** right. by exists p'.
    + edestruct IH as (hs & -> & Hhs). exists hs. split.
      * cbn [loadLines flat_map]. by rewrite Ht.
      * intros h. rewrite Hhs. split.
        -- intros [Hh | (p' & Hin & Hne & ->)]; [by left |].
           right. exists p'. split; [by apply list_elem_of_further | done].
        -- intros [Hh | (p' & Hin & Hne & ->)]; [by left |].
           apply elem_of_cons in Hin as [-> | Hin].
           ++ exfalso. apply Hne.
              destruct (String.eqb_spec (Str.trim pat) ""); [done |].
              simpl in Ht. destruct (String.eqb_spec (Str.trim pat) ""); done.
           ++ right. by exists p'.
Qed.

(** What [setupAuthentication] leaves behind: the digests of the loaded
    tokens, the optional warning and one line per loaded token. *)
Lemma run_setupAuthentication env st :
  ∃ hs,
    setupAuthentication env st =
      ({| validTokenHashes := hs;
          logs := logs st
                  ++ (if (length (accessTokens env) =? 0)%nat
                      then [noTokensWarning] else [])
                  ++ loadLines (accessTokens env);
          invocations := invocations st |}, Returns tt)
    ∧ ∀ h, h ∈ hs ↔
        h ∈ validTokenHashes st ∨ ∃ t, loaded env t ∧ h = sha256_hex t.
Proof.
  unfold setupAuthentication. rewrite run_bind.
  set (pats := accessTokens env).
  assert (Hl : ∀ h (s0 : gset string),
    (h ∈ s0
     ∨ ∃ pat, pat ∈ pats ∧ Str.trim pat ≠ "" ∧ h = sha256_hex (Str.trim pat))
    ↔ (h ∈ s0 ∨ ∃ t, loaded env t ∧ h = sha256_hex t)).
  { intros h s0. split; (intros [Hh | Hx]; [by left | right]).
    - destruct Hx as (pat & Hin & Hne & ->). exists (Str.trim pat).
      split; [by exists pat | done].
    - destruct Hx as (t & (pat & Hin & Hne & <-) & ->). by exists pat. }
  destruct (length pats =? 0)%nat.
  - unfold log at 1. cbn match.
    edestruct (forEach_loadToken pats) as (hs & -> & Hhs). exists hs. split.
    + cbn [logs invocations]. by rewrite <- app_assoc.
    + intros h. rewrite Hhs. cbn [validTokenHashes]. apply Hl.
  - rewrite run_ret.
    edestruct (forEach_loadToken pats) as (hs & -> & Hhs). exists hs. split.
    + done.
    + intros h. rewrite Hhs. apply Hl.
Qed.

Lemma authenticateToken_malformed req st :
  (∀ t, authorization req ≠ Some ("Bearer " +:+ t)) →
  authenticateToken req st = (st, Returns (Rejected missingHeader)).
Proof.
  intros Hform. unfold authenticateToken.
  destruct (authorization req) as [h|]; [| reflexivity].
  destruct (Str.startsWith "Bearer " h) eqn:Hs.
  - apply startsWith_Bearer in Hs as [t ->]. by destruct (Hform t).
  - by rewrite orb_true_r.
Qed.

Lemma authenticateToken_bearer req st t :
  authorization req = Some ("Bearer " +:+ t) →
  authenticateToken req st =
  if bool_decide (sha256_hex t ∈ validTokenHashes st) then
    (st, Returns (Next (withUser req (sha256_hex t))))
  else
    ({| validTokenHashes := validTokenHashes st;
        logs := logs st ++ [invalidAttemptLine (sha256_hex t) (ip req)];
        invocations := invocations st |}, Returns (Rejected invalidToken)).
Proof.
  intros Hh. unfold authenticateToken. rewrite Hh.
  rewrite truthy_Bearer.
  unfold Str.startsWith. rewrite prefix_append. cbn [negb orb].
  change 7%nat with (String.length "Bearer "). rewrite drop_append.
  rewrite run_bind. unfold hasTokenHash.
  destruct (bool_decide (sha256_hex t ∈ validTokenHashes st)); cbn [negb].
  - rewrite run_ret. unfold withUser. by rewrite Hh.
  - reflexivity.
Qed.

Lemma collisionFree_not_loaded env t (hs : gset string) :
  (∀ h, h ∈ hs ↔ h ∈ (∅ : gset string) ∨ ∃ t', loaded env t' ∧ h = sha256_hex t') →
  collisionFree env t = true →
  ¬ loaded env t →
  sha256_hex t ∉ hs.
Proof.
  intros Hhs Hcf Hnl Hin.
  apply Hhs in Hin as [Hin | (t' & Hl & Heq)]; [set_solver |].
  apply Hnl. destruct Hl as (pat & Hpat & Hne & <-).
  unfold collisionFree in Hcf. rewrite forallb_forall in Hcf.
  specialize (Hcf pat (proj1 (list_elem_of_In _ _) Hpat)).
  apply truthy_str in Hne. rewrite Hne, <- Heq, String.eqb_refl in Hcf.
  simpl in Hcf. apply String.eqb_eq in Hcf.
  exists pat. split; [done |]. split; [by apply truthy_str | done].
Qed.

(** C2: the configured tokens are the entries of [MCP_ACCESS_TOKENS],
    trimmed, without the empty ones ([loaded]). A header that is not
    [Bearer <token>] is rejected with the missing-header 401; a token that
    is configured is accepted with its digest as identity; any other
    token, a substring or prefix of a configured one included, is
    rejected with the invalid-token 401; so a header is accepted exactly
    when it is [Bearer <token>] with a configured token. Telling another
    token from the configured ones rests on the digest, which is a
    parameter here: that it gives the token no digest of a configured
    token is the hypothesis [collisionFree]. *)
Theorem C2_authenticate_loaded_tokens env req :
  let st := (setupAuthentication env initialState).1 in
  ((∀ t, authorization req ≠ Some ("Bearer " +:+ t)) →
     authenticateToken req st = (st, Returns (Rejected missingHeader)))
  ∧ (∀ t, authorization req = Some ("Bearer " +:+ t) → loaded env t →
       authenticateToken req st =
         (st, Returns (Next (withUser req (sha256_hex t)))))
  ∧ (∀ t, authorization req = Some ("Bearer " +:+ t) → ¬ loaded env t →
       collisionFree env t = true →
       (authenticateToken req st).2 = Returns (Rejected invalidToken))
  ∧ ((∀ t, authorization req = Some ("Bearer " +:+ t) →
           collisionFree env t = true) →
     ((∃ req', (authenticateToken req st).2 = Returns (Next req'))
      ↔ ∃ t, authorization req = Some ("Bearer " +:+ t) ∧ loaded env t)).
Proof.
  intros st.
  destruct (run_setupAuthentication env initialState) as (hs & Hrun & Hhs).
  assert (Hst : validTokenHashes st = hs) by (subst st; by rewrite Hrun).
  assert (Hyes : ∀ t, authorization req = Some ("Bearer " +:+ t) → loaded env t →
            authenticateToken req st =
              (st, Returns (Next (withUser req (sha256_hex t))))).
  { intros t Hh Hl. rewrite (authenticateToken_bearer req st t Hh).
    rewrite bool_decide_eq_true_2; [done |].
    rewrite Hst. apply Hhs. right. by exists t. }
  assert (Hno : ∀ t, authorization req = Some ("Bearer " +:+ t) → ¬ loaded env t →
            collisionFree env t = true →
            (authenticateToken req st).2 = Returns (Rejected invalidToken)).
  { intros t Hh Hnl Hcf. rewrite (authenticateToken_bearer req st t Hh).
    rewrite bool_decide_eq_false_2; [done |].
    rewrite Hst. by apply (collisionFree_not_loaded env). }
  split; [apply authenticateToken_malformed |].
  split; [exact Hyes |]. split; [exact Hno |].
  intros Hcf. split.
  - intros [req' Hok].
    destruct (authorization req) as [h|] eqn:Hauth.
    + destruct (Str.startsWith "Bearer " h) eqn:Hs.
      * apply startsWith_Bearer in Hs as [t ->]. exists t. split; [done |].
        destruct (classic_loaded env t) as [Hl | Hnl]; [done |].
        rewrite (Hno t eq_refl Hnl (Hcf t eq_refl)) in Hok. discriminate.
      * rewrite authenticateToken_malformed in Hok; [discriminate |].
        intros t Ht. rewrite Hauth in Ht. injection Ht as ->.
        unfold Str.startsWith in Hs. by rewrite prefix_append in Hs.
    + rewrite authenticateToken_malformed in Hok; [discriminate |].
      intros t Ht. by rewrite Hauth in Ht.
  - intros (t & Hh & Hl). exists (withUser req (sha256_hex t)).
    by rewrite (Hyes t Hh Hl).
Qed.

(** ** Exceptions *)

Lemma run_errorHandler err req st :
  errorHandler err req st =
  ({| validTokenHashes := validTokenHashes st;
      logs := logs st ++ [serverErrorLine err (path req) (method req)];
      invocations := invocations st |}, Returns genericError).
Proof. reflexivity. Qed.

Lemma handleAirbnbSearchAPI_throws req st e :
  handleAirbnbSearch (body req) = Throws e →
  (handleAirbnbSearchAPI req st).2 = Returns (mkResponse 500 (errorBody e)).
Proof.
  intros He. unfold handleAirbnbSearchAPI, try_catch.
  by rewrite run_bind, run_invoke, He.
Qed.

Lemma handleAirbnbListingAPI_throws req st e :
  handleAirbnbListingDetails (listingParams req) = Throws e →
  (handleAirbnbListingAPI req st).2 = Returns (mkResponse 500 (errorBody e)).
Proof.
  intros He. unfold handleAirbnbListingAPI, try_catch.
  by rewrite run_bind, run_invoke, He.
Qed.

(** C3, as the code has it: an error that reaches the terminal error
    handler (one handed to [next] by the middleware chain, such as a
    failure of the body parser) is logged with its message and stack, and
    the reply is the same generic HTTP 500 body whatever the error. An
    exception raised while a route handler runs never gets there: the
    handler's own [catch] replies with the exception's message, with
    status 500 on the two Airbnb aliases. *)
Theorem C3_generic_500_only_from_error_handler inc st err :
  parsedBody inc = Throws err →
  app inc st =
    ({| validTokenHashes := validTokenHashes st;
        logs := logs st ++ [serverErrorLine err (in_path inc) (in_method inc)];
        invocations := invocations st |}, Returns genericError)
  ∧ (∀ req st0 e, handleAirbnbSearch (body req) = Throws e →
       (handleAirbnbSearchAPI req st0).2 = Returns (mkResponse 500 (errorBody e)))
  ∧ (∀ req st0 e, handleAirbnbListingDetails (listingParams req) = Throws e →
       (handleAirbnbListingAPI req st0).2 = Returns (mkResponse 500 (errorBody e))).
Proof.
  intros Hparse. split; [| split].
  - unfold app. rewrite Hparse. apply run_errorHandler.
  - intros req st0 e. apply handleAirbnbSearchAPI_throws.
  - intros req st0 e. apply handleAirbnbListingAPI_throws.
Qed.

(** ** The JSON-RPC endpoint *)

Lemma is_str_truthy v : is_str v "2.0" = true → truthy v = true.
Proof.
  destruct v as [| | | |s| |]; try discriminate. simpl.
  destruct (String.eqb_spec s "2.0") as [->|]; [done | discriminate].
Qed.

Lemma truthy_field_not_nullish k v :
  truthy (field k v) = true → truthy v = true.
Proof. by destruct v. Qed.

(** What [handleMCPRequest] does on a body that is not [null] or
    [undefined], case by case along its [if] and [switch]. *)
Lemma run_handleMCPRequest req st :
  nullish (body req) = false →
  let id := field "id" (body req) in
  let meth := field "method" (body req) in
  let ps := field "params" (body req) in
  handleMCPRequest req st =
  if negb (is_str (field "jsonrpc" (body req)) "2.0") then
    (st, Returns (mcpError id (code_number InvalidRequest) "Invalid JSON-RPC version"))
  else if is_str meth "tools/list" then
    (st, Returns (mcpResult id catalog))
  else if is_str meth "tools/call" then
    if negb (truthy (field "name" ps)) then
      (st, Returns (mcpError id (code_number InvalidParams)
                      (mcpErrorMessage (code_number InvalidParams)
                         "Tool name is required")))
    else
      match callTool (field "name" ps) (js_or (field "arguments" ps) (JObj ∅)) st with
      | (st', Returns r) => (st', Returns (mcpResult id r))
      | (st', Throws e) =>
          (st', Returns (mcpError id (error_code_or InternalError e) (error_message e)))
      end
  else
    match to_template meth with
    | Some text =>
        (st, Returns (mcpError id (code_number MethodNotFound)
                        (mcpErrorMessage (code_number MethodNotFound)
                           ("Method not found: " +:+ text))))
    | None =>
        (st, Returns (mcpError id (code_number InternalError) cannotConvert))
    end.
Proof.
  intros Hb. cbn zeta. unfold handleMCPRequest, try_catch.
  rewrite !(get_field _ _ Hb).
  rewrite run_bind, run_ret.
  destruct (is_str (field "jsonrpc" (body req)) "2.0") eqn:Hv.
  - rewrite (is_str_truthy _ Hv). cbn [negb orb].
    rewrite run_bind, run_ret, run_bind.
    destruct (is_str (field "method" (body req)) "tools/list") eqn:Hl.
    { reflexivity. }
    destruct (is_str (field "method" (body req)) "tools/call") eqn:Hc.
    2:{ rewrite run_bind, run_template.
        by destruct (to_template (field "method" (body req))). }
    rewrite run_bind, run_ret, get_opt_field, run_bind, run_ret.
    destruct (truthy (field "name" (field "params" (body req)))) eqn:Hn.
    2:{ reflexivity. }
    cbn [negb].
    rewrite (get_field _ _ (truthy_not_nullish _
               (truthy_field_not_nullish _ _ Hn))).
    rewrite run_bind, run_ret.
    destruct (callTool _ _ st) as [st' [r|e]]; reflexivity.
  - rewrite orb_true_r. reflexivity.
Qed.

Lemma run_callTool name args st :
  callTool name args st =
  if is_str name "airbnb_search" then
    invoke "airbnb_search" handleAirbnbSearch args st
  else if is_str name "airbnb_listing_details" then
    invoke "airbnb_listing_details" handleAirbnbListingDetails args st
  else
    match to_template name with
    | Some text =>
        (st, Throws (McpError (code_number MethodNotFound)
                       ("Unknown tool: " +:+ text)))
    | None => (st, Throws (ErrorObj cannotConvert))
    end.
Proof.
  unfold callTool.
  destruct (is_str name "airbnb_search"); [done |].
  destruct (is_str name "airbnb_listing_details"); [done |].
  rewrite run_bind, run_template. by destruct (to_template name).
Qed.

Lemma callTool_search args st :
  callTool (JStr "airbnb_search") args st =
  invoke "airbnb_search" handleAirbnbSearch args st.
Proof. reflexivity. Qed.

Lemma callTool_details args st :
  callTool (JStr "airbnb_listing_details") args st =
  invoke "airbnb_listing_details" handleAirbnbListingDetails args st.
Proof. reflexivity. Qed.


Lemma mcp_reply_shape req st :
  nullish (body req) = false →
  ∃ st' resp, handleMCPRequest req st = (st', Returns resp)
    ∧ ((∃ r, resp = mcpResult (field "id" (body req)) r)
       ∨ (∃ c msg, resp = mcpError (field "id" (body req)) c msg)).
Proof.
  intros Hb. rewrite (run_handleMCPRequest req st Hb).
  destruct (is_str (field "jsonrpc" (body req)) "2.0"); cbn [negb]; [| by eauto 10].
  destruct (is_str (field "method" (body req)) "tools/list"); [by eauto 10 |].
  destruct (is_str (field "method" (body req)) "tools/call");
    [| destruct (to_template (field "method" (body req))); by eauto 10].
  destruct (truthy (field "name" (field "params" (body req)))); cbn [negb];
    [| by eauto 10].
  destruct (callTool _ _ st) as [st' [r|e]]; by eauto 10.
Qed.

Lemma field_id_mcpError id c msg :
  field "id" (json (mcpError id c msg)) = js_or id JNull.
Proof. reflexivity. Qed.

Lemma field_id_mcpResult id r : field "id" (json (mcpResult id r)) = id.
Proof. reflexivity. Qed.

Lemma field_result_mcpResult id r : field "result" (json (mcpResult id r)) = r.
Proof. reflexivity. Qed.

Lemma field_tools_catalog : field "tools" catalog = JArr AIRBNB_TOOLS.
Proof. reflexivity. Qed.

(** C10: on [POST /mcp] the [id] of an error reply is [request id || null].
    When the request id is falsy (the number 0, the empty string, absent)
    every HTTP 400 reply carries [id: null], while an HTTP 200 reply
    carries the request id as it came. *)
Theorem C10_error_id_is_null_for_falsy_id req st resp :
  nullish (body req) = false →
  truthy (field "id" (body req)) = false →
  (handleMCPRequest req st).2 = Returns resp →
  (status resp = 400%Z → field "id" (json resp) = JNull)
  ∧ (status resp = 200%Z → field "id" (json resp) = field "id" (body req))
  ∧ (status resp = 400%Z ∨ status resp = 200%Z).
Proof.
  intros Hb Hid Hresp.
  destruct (mcp_reply_shape req st Hb) as (st' & resp' & Hrun & Hshape).
  rewrite Hrun in Hresp. injection Hresp as <-.
  destruct Hshape as [[r ->] | (c & msg & ->)].
  - split; [discriminate |]. split; [| by right].
    intros _. apply field_id_mcpResult.
  - split; [| split; [discriminate | by left]].
    intros _. rewrite field_id_mcpError. unfold js_or. by rewrite Hid.
Qed.

(** C5: a [tools/list] request on [POST /mcp] is answered with HTTP 200;
    the reply carries the request id as it came and the catalog
    [AIRBNB_TOOLS] in its order, so as many tools as the catalog has; the
    server state is unchanged, so a repeated call gives the same reply.
    The stdio handler returns the same catalog. *)
Theorem C5_tools_list_echoes_id_and_catalog req st :
  nullish (body req) = false →
  is_str (field "jsonrpc" (body req)) "2.0" = true →
  is_str (field "method" (body req)) "tools/list" = true →
  ∃ resp,
    handleMCPRequest req st = (st, Returns resp)
    ∧ status resp = 200%Z
    ∧ field "id" (json resp) = field "id" (body req)
    ∧ field "tools" (field "result" (json resp)) = JArr AIRBNB_TOOLS
    ∧ js_length (field "tools" (field "result" (json resp)))
        = Some (length AIRBNB_TOOLS)
    ∧ handleMCPRequest req (handleMCPRequest req st).1 = (st, Returns resp)
    ∧ Stdio.listToolsHandler st = (st, Returns (field "result" (json resp))).
Proof.
  intros Hb Hv Hl.
  exists (mcpResult (field "id" (body req)) catalog).
  assert (Hrun : handleMCPRequest req st =
                 (st, Returns (mcpResult (field "id" (body req)) catalog))).
  { by rewrite (run_handleMCPRequest req st Hb), Hv, Hl. }
  rewrite Hrun. cbn [fst].
  rewrite field_id_mcpResult, field_result_mcpResult, field_tools_catalog.
  repeat split; try done.
Qed.

(** ** The REST alias of [tools/call] *)

Lemma run_handleCallTool req st :
  nullish (body req) = false →
  handleCallTool req st =
  if negb (truthy (field "name" (body req))) then
    (st, Returns (mkResponse 400 (obj [("error", JStr "Tool name is required")])))
  else
    match callTool (field "name" (body req))
            (js_or (field "arguments" (body req)) (JObj ∅)) st with
    | (st', Returns r) => (st', Returns (mkResponse 200 r))
    | (st', Throws e) => (st', Returns (mkResponse 400 (errorBody e)))
    end.
Proof.
  intros Hb. unfold handleCallTool, try_catch.
  rewrite (destructure_field _ _ _ Hb), (get_field _ _ Hb).
  rewrite run_bind, run_ret, run_bind, run_ret.
  destruct (truthy (field "name" (body req))); cbn [negb]; [| reflexivity].
  rewrite run_bind.
  destruct (callTool _ _ st) as [st' [r|e]]; reflexivity.
Qed.

(** C8: on [POST /api/tools/call] with a parsed body, a body without a
    [name] is answered with HTTP 400 and [{error: 'Tool name is
    required'}]; when
    [name] is a registered tool and the tool returns, its result is the
    reply, unchanged and with HTTP 200, whatever its [isError] flag. *)
Theorem C8_tools_call_rest req st :
  nullish (body req) = false →
  let args := js_or (field "arguments" (body req)) (JObj ∅) in
  (field "name" (body req) = JUndefined →
     handleCallTool req st =
       (st, Returns (mkResponse 400 (obj [("error", JStr "Tool name is required")]))))
  ∧ (truthy (field "name" (body req)) = false →
     handleCallTool req st =
       (st, Returns (mkResponse 400 (obj [("error", JStr "Tool name is required")]))))
  ∧ (∀ r, field "name" (body req) = JStr "airbnb_search" →
       handleAirbnbSearch args = Returns r →
       (handleCallTool req st).2 = Returns (mkResponse 200 r))
  ∧ (∀ r, field "name" (body req) = JStr "airbnb_listing_details" →
       handleAirbnbListingDetails args = Returns r →
       (handleCallTool req st).2 = Returns (mkResponse 200 r)).
Proof.
  intros Hb args. assert (Hrun := run_handleCallTool req st Hb).
  fold args in Hrun. split; [| split; [| split]].
  - intros Hnone. by rewrite Hrun, Hnone.
  - intros Hfalsy. by rewrite Hrun, Hfalsy.
  - intros r Hname Hr. rewrite Hrun, Hname, callTool_search, run_invoke.
    by rewrite Hr.
  - intros r Hname Hr. rewrite Hrun, Hname, callTool_details, run_invoke.
    by rewrite Hr.
Qed.

(** ** Missing [arguments] on the two JSON-RPC surfaces *)

Lemma field_obj_inv k v w : field k v = JObj w → ∃ m, v = JObj m.
Proof. destruct v; try discriminate. eauto. Qed.

Lemma run_callToolHandler_no_arguments stringify t0 t1 ts request pm name st :
  field "params" request = JObj pm →
  pm !! "name" = Some name → truthy name = true →
  truthy (field "arguments" (JObj pm)) = false →
  Stdio.callToolHandler stringify t0 t1 ts request st =
  ({| validTokenHashes := validTokenHashes st;
      logs := logs st ++ [mkLog "error" "Tool call failed" (obj [
                ("tool", name);
                ("duration", JStr (pretty (t1 - t0)%Z +:+ "ms"));
                ("error", JStr (mcpErrorMessage (code_number InvalidParams)
                                  "Tool arguments are required"))])];
      invocations := invocations st |},
   Throws (McpError (code_number InvalidParams) "Tool arguments are required")).
Proof.
  intros Hps Hname Htruthy Hargs.
  destruct (field_obj_inv _ _ _ Hps) as [rm ->]. cbn [field] in Hps, Hargs.
  unfold Stdio.callToolHandler, try_catch.
  rewrite run_bind, run_get_obj, Hps.
  rewrite !run_bind, !run_get_obj, Hname. cbn [default from_option id].
  rewrite Htruthy. cbn [negb]. rewrite run_bind, run_ret, run_bind, run_get_obj.
  rewrite Hargs. cbn [negb]. rewrite run_bind.
  unfold throw at 1. cbn match.
  rewrite run_bind, run_get_obj, Hname. reflexivity.
Qed.

(** C9: a [tools/call] whose params name a tool but have no [arguments]
    is rejected by the stdio handler with [InvalidParams] ("Tool arguments
    are required") before any tool is called, while [POST /mcp] calls the
    tool with the empty object as arguments. *)
Theorem C9_missing_arguments_stdio_vs_http
    req request pm name st stringify t0 t1 ts :
  field "jsonrpc" (body req) = JStr "2.0" →
  field "method" (body req) = JStr "tools/call" →
  field "params" (body req) = JObj pm →
  field "params" request = JObj pm →
  pm !! "name" = Some name → truthy name = true →
  pm !! "arguments" = None →
  let stdio := Stdio.callToolHandler stringify t0 t1 ts request st in
  let http := handleMCPRequest req st in
  stdio.2 = Throws (McpError (code_number InvalidParams) "Tool arguments are required")
  ∧ invocations stdio.1 = invocations st
  ∧ http =
      match callTool name (JObj ∅) st with
      | (st', Returns r) => (st', Returns (mcpResult (field "id" (body req)) r))
      | (st', Throws e) =>
          (st', Returns (mcpError (field "id" (body req))
                           (error_code_or InternalError e) (error_message e)))
      end
  ∧ (name = JStr "airbnb_search" →
       invocations http.1 = invocations st ++ [mkInvocation "airbnb_search" (JObj ∅)])
  ∧ (name = JStr "airbnb_listing_details" →
       invocations http.1 =
         invocations st ++ [mkInvocation "airbnb_listing_details" (JObj ∅)]).
Proof.
  intros Hv Hm Hps Hps' Hname Htruthy Hargs stdio http.
  assert (Hfalsy : truthy (field "arguments" (JObj pm)) = false).
  { cbn [field]. by rewrite Hargs. }
  assert (Hstdio := run_callToolHandler_no_arguments
                      stringify t0 t1 ts request pm name st
                      Hps' Hname Htruthy Hfalsy).
  fold stdio in Hstdio.
  assert (Hhttp : http =
      match callTool name (JObj ∅) st with
      | (st', Returns r) => (st', Returns (mcpResult (field "id" (body req)) r))
      | (st', Throws e) =>
          (st', Returns (mcpError (field "id" (body req))
                           (error_code_or InternalError e) (error_message e)))
      end).
  { destruct (field_obj_inv _ _ _ Hps) as [m Hb]. subst http.
    assert (Hnn : nullish (body req) = false) by by rewrite Hb.
    rewrite (run_handleMCPRequest req st Hnn), Hv, Hm, Hps.
    change (is_str (JStr "2.0") "2.0") with true.
    change (is_str (JStr "tools/call") "tools/list") with false.
    change (is_str (JStr "tools/call") "tools/call") with true.
    cbn [field negb]. rewrite Hname, Hargs. cbn [default from_option id].
    rewrite Htruthy. reflexivity. }
  split; [by rewrite Hstdio |]. split; [by rewrite Hstdio |].
  split; [exact Hhttp |]. split.
  - intros ->. rewrite Hhttp, callTool_search, run_invoke.
    destruct (handleAirbnbSearch (JObj ∅)); reflexivity.
  - intros ->. rewrite Hhttp, callTool_details, run_invoke.
    destruct (handleAirbnbListingDetails (JObj ∅)); reflexivity.
Qed.

(** ** The gateway always answers *)

Lemma authenticateToken_cases req st :
  (∃ st' res, authenticateToken req st = (st', Returns (Rejected res))
              ∧ status res = 401%Z)
  ∨ (∃ h, authenticateToken req st = (st, Returns (Next (withUser req h)))).
Proof.
  destruct (authorization req) as [h|] eqn:Hauth.
  - destruct (Str.startsWith "Bearer " h) eqn:Hs.
    + apply startsWith_Bearer in Hs as [t ->].
      rewrite (authenticateToken_bearer req st t Hauth).
      destruct (bool_decide _); [right; by eexists | left; by do 2 eexists].
    + left. rewrite authenticateToken_malformed; [by do 2 eexists |].
      intros t Ht. rewrite Hauth in Ht. injection Ht as ->.
      unfold Str.startsWith in Hs. by rewrite prefix_append in Hs.
  - left. rewrite authenticateToken_malformed; [by do 2 eexists |].
    intros t Ht. by rewrite Hauth in Ht.
Qed.

Lemma authenticated_replies handler req st :
  (∀ h st0, ∃ st' resp, handler (withUser req h) st0 = (st', Returns resp)) →
  ∃ st' resp, authenticated handler req st = (st', Returns resp).
Proof.
  intros Hh. unfold authenticated. rewrite run_bind.
  destruct (authenticateToken_cases req st)
    as [(st' & res & -> & _) | (h & ->)]; [by do 2 eexists |].
  apply Hh.
Qed.

Lemma handleAirbnbSearchAPI_replies req st :
  ∃ st' resp, handleAirbnbSearchAPI req st = (st', Returns resp).
Proof.
  unfold handleAirbnbSearchAPI, try_catch. rewrite run_bind, run_invoke.
  destruct (handleAirbnbSearch (body req)); by do 2 eexists.
Qed.

Lemma handleAirbnbListingAPI_replies req st :
  ∃ st' resp, handleAirbnbListingAPI req st = (st', Returns resp).
Proof.
  unfold handleAirbnbListingAPI, try_catch. rewrite run_bind, run_invoke.
  destruct (handleAirbnbListingDetails (listingParams req)); by do 2 eexists.
Qed.

Lemma handleCallTool_replies req st :
  nullish (body req) = false →
  ∃ st' resp, handleCallTool req st = (st', Returns resp).
Proof.
  intros Hb. rewrite (run_handleCallTool req st Hb).
  destruct (truthy (field "name" (body req))); cbn [negb]; [| by do 2 eexists].
  destruct (callTool _ _ st) as [st' [r|e]]; by do 2 eexists.
Qed.

(** Whatever the route, a request whose body the parsers accepted gets a
    response: no handler of the gateway lets an exception escape. *)
Lemma app_replies inc b st :
  parsedBody inc = Returns b → nullish b = false →
  ∃ st' resp, app inc st = (st', Returns resp).
Proof.
  intros Hparse Hb. unfold app. rewrite Hparse, run_bind.
  unfold requestLogger, log at 1. cbn match.
  destruct (in_route inc); try by do 2 eexists.
  - apply authenticated_replies. intros h st0.
    destruct (mcp_reply_shape (withUser (request_of inc b) h) st0 Hb)
      as (st' & resp & Hrun & _). eauto.
  - apply authenticated_replies. intros h st0. by do 2 eexists.
  - apply authenticated_replies. intros h st0.
    by apply handleCallTool_replies.
  - apply authenticated_replies. intros h st0.
    apply handleAirbnbSearchAPI_replies.
  - apply authenticated_replies. intros h st0.
    apply handleAirbnbListingAPI_replies.
Qed.

(** ** The token store over the life of the process *)

Lemma pt_callTool name args : preservesTokens (callTool name args).
Proof. unfold callTool. preserves. Qed.

Lemma pt_handleMCPRequest req : preservesTokens (handleMCPRequest req).
Proof. unfold handleMCPRequest. preserves; apply pt_callTool. Qed.

Lemma pt_handleListTools req : preservesTokens (handleListTools req).
Proof. unfold handleListTools. preserves. Qed.

Lemma pt_handleCallTool req : preservesTokens (handleCallTool req).
Proof. unfold handleCallTool. preserves; apply pt_callTool. Qed.

Lemma pt_handleAirbnbSearchAPI req : preservesTokens (handleAirbnbSearchAPI req).
Proof. unfold handleAirbnbSearchAPI. preserves. Qed.

Lemma pt_handleAirbnbListingAPI req : preservesTokens (handleAirbnbListingAPI req).
Proof. unfold handleAirbnbListingAPI. preserves. Qed.

Lemma pt_authenticateToken req : preservesTokens (authenticateToken req).
Proof. unfold authenticateToken. preserves. Qed.

Lemma pt_authenticated handler req :
  (∀ r, preservesTokens (handler r)) →
  preservesTokens (authenticated handler req).
Proof.
  intros Hh. unfold authenticated.
  apply pt_bind; [apply pt_authenticateToken |].
  intros [res | req']; [apply pt_ret | apply Hh].
Qed.

Lemma pt_app inc : preservesTokens (app inc).
Proof.
  unfold app. destruct (parsedBody inc) as [b|err].
  - apply pt_bind; [apply pt_log |]. intros _.
    destruct (in_route inc);
      first [ apply pt_authenticated; intros r;
              first [ apply pt_handleMCPRequest | apply pt_handleListTools
                    | apply pt_handleCallTool | apply pt_handleAirbnbSearchAPI
                    | apply pt_handleAirbnbListingAPI ]
            | apply pt_ret ].
  - unfold errorHandler. preserves.
Qed.

Lemma authenticateToken_logs req st :
  logs (authenticateToken req st).1 = logs st
  ∨ ∃ t, authorization req = Some ("Bearer " +:+ t)
         ∧ logs (authenticateToken req st).1 =
             logs st ++ [invalidAttemptLine (sha256_hex t) (ip req)].
Proof.
  destruct (authorization req) as [h|] eqn:Hauth.
  - destruct (Str.startsWith "Bearer " h) eqn:Hs.
    + apply startsWith_Bearer in Hs as [t ->].
      rewrite (authenticateToken_bearer req st t Hauth).
      destruct (bool_decide _); [by left | right].
      exists t. by split.
    + left. rewrite authenticateToken_malformed; [done |].
      intros t Ht. rewrite Hauth in Ht. injection Ht as ->.
      unfold Str.startsWith in Hs. by rewrite prefix_append in Hs.
  - left. rewrite authenticateToken_malformed; [done |].
    intros t Ht. by rewrite Hauth in Ht.
Qed.

Lemma loadLines_elem pats l :
  l ∈ loadLines pats →
  ∃ pat, pat ∈ pats ∧ Str.trim pat ≠ ""
         ∧ l = tokenLoadedLine (sha256_hex (Str.trim pat)).
Proof.
  induction pats as [|pat pats IH]; cbn [loadLines flat_map].
  - intros Hin. by apply elem_of_nil in Hin.
  - intros Hin. apply elem_of_app in Hin as [Hin | Hin].
    + destruct (truthy (JStr (Str.trim pat))) eqn:Ht.
      * apply list_elem_of_singleton in Hin as ->. exists pat.
        split; [apply list_elem_of_here |]. split; [by apply truthy_str | done].
      * by apply elem_of_nil in Hin.
    + destruct (IH Hin) as (p' & Hp' & Hne & ->). exists p'.
      split; [by apply list_elem_of_further | done].
Qed.

Lemma hashPrefix_length h : String.length (hashPrefix h) ≤ 11.
Proof.
  unfold hashPrefix.
  assert (Happ : ∀ a b, String.length (a +:+ b) = String.length a + String.length b).
  { intros a b. induction a as [|c a IH]; simpl; [done | by rewrite IH]. }
  assert (Htake : ∀ n s, String.length (Str.take n s) ≤ n).
  { intros n. induction n as [|n IH]; intros [|c s]; simpl; try lia.
    specialize (IH s). lia. }
  rewrite Happ. specialize (Htake 8 h).
  change (String.length "...") with 3. lia.
Qed.

(** C7: the token set holds exactly the digests of the loaded tokens and
    no request changes it; every line that [setupAuthentication] logs is
    the fixed warning or [Access token loaded] with the first eight
    characters of a digest; [authenticateToken] logs nothing or one
    [Invalid token attempt] line with the first eight characters of the
    digest of the presented token and the caller's address. What is stored
    and logged is computed from digests only. *)
Theorem C7_only_digests_stored_and_logged env :
  let st := (setupAuthentication env initialState).1 in
  (∀ h, h ∈ validTokenHashes st ↔ ∃ t, loaded env t ∧ h = sha256_hex t)
  ∧ (∀ l, l ∈ logs st →
       l = noTokensWarning
       ∨ ∃ t, loaded env t
              ∧ l = mkLog "info" "Access token loaded"
                      (obj [("tokenHash", JStr (Str.take 8 (sha256_hex t) +:+ "..."))]))
  ∧ (∀ req st0,
       validTokenHashes (authenticateToken req st0).1 = validTokenHashes st0
       ∧ (logs (authenticateToken req st0).1 = logs st0
          ∨ ∃ t, authorization req = Some ("Bearer " +:+ t)
                 ∧ logs (authenticateToken req st0).1 =
                     logs st0 ++ [mkLog "warn" "Invalid token attempt" (obj [
                        ("tokenHash", JStr (Str.take 8 (sha256_hex t) +:+ "..."));
                        ("ip", opt_str (ip req))])]))
  ∧ (∀ inc st0, validTokenHashes (app inc st0).1 = validTokenHashes st0)
  ∧ (∀ h, String.length (Str.take 8 h +:+ "...") ≤ 11).
Proof.
  intros st.
  destruct (run_setupAuthentication env initialState) as (hs & Hrun & Hhs).
  subst st. rewrite Hrun. cbn [fst validTokenHashes logs initialState app_nil_l].
  split; [| split; [| split; [| split]]].
  - intros h. rewrite Hhs. split; [| by right].
    intros [Hin | Hx]; [set_solver | done].
  - intros l Hin.
    apply elem_of_app in Hin as [Hin | Hin]; [by apply elem_of_nil in Hin |].
    apply elem_of_app in Hin as [Hin | Hin].
    + left. destruct (length (accessTokens env) =? 0)%nat.
      * by apply list_elem_of_singleton in Hin.
      * by apply elem_of_nil in Hin.
    + right. destruct (loadLines_elem _ _ Hin) as (pat & Hp & Hne & ->).
      exists (Str.trim pat). split; [by exists pat | done].
  - intros req st0. split; [apply pt_authenticateToken |].
    apply authenticateToken_logs.
  - intros inc st0. apply pt_app.
  - apply hashPrefix_length.
Qed.

(** ** An empty token store *)

Lemma empty_store_rejects req st :
  validTokenHashes st = ∅ →
  ∃ res, (authenticateToken req st).2 = Returns (Rejected res)
         ∧ status res = 401%Z.
Proof.
  intros Hempty.
  destruct (authorization req) as [h|] eqn:Hauth.
  - destruct (Str.startsWith "Bearer " h) eqn:Hs.
    + apply startsWith_Bearer in Hs as [t ->].
      rewrite (authenticateToken_bearer req st t Hauth).
      rewrite bool_decide_eq_false_2; [by eexists | ].
      rewrite Hempty. set_solver.
    + rewrite authenticateToken_malformed; [by eexists |].
      intros t Ht. rewrite Hauth in Ht. injection Ht as ->.
      unfold Str.startsWith in Hs. by rewrite prefix_append in Hs.
  - rewrite authenticateToken_malformed; [by eexists |].
    intros t Ht. by rewrite Hauth in Ht.
Qed.

(** C6, at [MCP_ACCESS_TOKENS] set to the empty string: the list of
    entries is [['']], no
    entry is left after trimming, the token set stays empty and every
    request is rejected with HTTP 401, but no warning is logged: the state
    after [setupAuthentication] is the initial one, with an empty log. *)
Theorem C6_blank_token_list_logs_no_warning :
  accessTokens (Some "") = [""]
  ∧ setupAuthentication (Some "") initialState = (initialState, Returns tt)
  ∧ logs (setupAuthentication (Some "") initialState).1 = []
  ∧ validTokenHashes (setupAuthentication (Some "") initialState).1 = ∅
  ∧ (∀ req, ∃ res,
       (authenticateToken req (setupAuthentication (Some "") initialState).1).2
         = Returns (Rejected res)
       ∧ status res = 401%Z).
Proof.
  assert (Hrun : setupAuthentication (Some "") initialState
                 = (initialState, Returns tt)) by reflexivity.
  rewrite Hrun. cbn [fst]. repeat split; try reflexivity.
  intros req. by apply empty_store_rejects.
Qed.

End Properties.

Lemma C1_listing_id_body_precedence_witness :
  ∃ args,
    invocations (handleAirbnbListingAPI (R := sampleRuntime) (C := sampleCore)
         (post "/api/airbnb/listing/42" {["id" := "42"]} (obj [("checkin", JStr "2025-01-01")]))
         initialState).1 =
      [mkInvocation "airbnb_listing_details" args]
    ∧ field "id" args = JStr "42".
Proof.
  apply (C1_listing_id_body_precedence (C := sampleCore)
           (post "/api/airbnb/listing/42" {["id" := "42"]} (obj [("checkin", JStr "2025-01-01")]))
           initialState "42").
  vm_compute. reflexivity.
Defined.

(** C1 as stated fails: with [id = 42] in the path and [{id: 99}] in the
    body, the detail tool is called with [id = 99]. *)
Lemma C1_path_id_overridden :
  invocations (handleAirbnbListingAPI (R := sampleRuntime) (C := sampleCore)
       (post "/api/airbnb/listing/42" {["id" := "42"]} (obj [("id", JNum 99)]))
       initialState).1 =
    [mkInvocation "airbnb_listing_details" (obj [("id", JNum 99)])]
  ∧ field "id" (obj [("id", JNum 99)]) ≠ JStr "42".
Proof. split; [reflexivity | discriminate]. Qed.

Lemma C2_authenticate_loaded_tokens_witness :
  let env := Some "tok1, tok2" in
  let st := (setupAuthentication (R := sampleRuntime) env initialState).1 in
  authenticateToken (R := sampleRuntime) (withHeader "Basic tok2") st =
    (st, Returns (Rejected missingHeader))
  ∧ authenticateToken (R := sampleRuntime) (withHeader "Bearer tok2") st =
      (st, Returns (Next (withUser (withHeader "Bearer tok2") "sha256:tok2")))
  ∧ (authenticateToken (R := sampleRuntime) (withHeader "Bearer tok") st).2 =
      Returns (Rejected invalidToken).
Proof.
  intros env st. split; [| split].
  - destruct (C2_authenticate_loaded_tokens (R := sampleRuntime) env
                (withHeader "Basic tok2")) as (Hmissing & _).
    apply Hmissing. intros t Ht. vm_compute in Ht. discriminate.
  - destruct (C2_authenticate_loaded_tokens (R := sampleRuntime) env
                (withHeader "Bearer tok2")) as (_ & Haccept & _).
    apply (Haccept "tok2"); [reflexivity |].
    exists " tok2". split; [| split]; [| vm_compute; discriminate | reflexivity].
    apply list_elem_of_further, list_elem_of_here.
  - destruct (C2_authenticate_loaded_tokens (R := sampleRuntime) env
                (withHeader "Bearer tok")) as (_ & _ & Hreject & _).
    apply (Hreject "tok"); [reflexivity | | reflexivity].
    intros (pat & Hin & _ & Heq). vm_compute in Hin.
    apply elem_of_cons in Hin as [-> | Hin]; [vm_compute in Heq; discriminate |].
    apply elem_of_cons in Hin as [-> | Hin]; [vm_compute in Heq; discriminate |].
    by apply elem_of_nil in Hin.
Defined.

(** The configured token is the trimmed entry: with
    [MCP_ACCESS_TOKENS="tok1, tok2"] the raw entry [" tok2"] is rejected
    and its trimmed form ["tok2"] is accepted. *)
Lemma raw_entry_is_not_the_token :
  let env := Some "tok1, tok2" in
  let st := (setupAuthentication (R := sampleRuntime) env initialState).1 in
  (" tok2" ∈ accessTokens env
   ∧ (authenticateToken (R := sampleRuntime) (withHeader "Bearer  tok2") st).2 =
       Returns (Rejected invalidToken))
  ∧ (("tok2" ∉ accessTokens env)
     ∧ (authenticateToken (R := sampleRuntime) (withHeader "Bearer tok2") st).2 =
         Returns (Next (withUser (withHeader "Bearer tok2") "sha256:tok2"))).
Proof.
  intros env st. split; split.
  - apply list_elem_of_further, list_elem_of_here.
  - vm_compute. reflexivity.
  - intros Hin. vm_compute in Hin.
    apply elem_of_cons in Hin as [Heq | Hin]; [discriminate |].
    apply elem_of_cons in Hin as [Heq | Hin]; [discriminate |].
    by apply elem_of_nil in Hin.
  - vm_compute. reflexivity.
Qed.

Lemma C3_generic_500_only_from_error_handler_witness :
  (app (R := sampleRuntime) (C := failingCore)
     (mkIncoming PostSearch "POST" "/api/airbnb/search" None None None
        (Throws (ErrorObj "Unexpected token } in JSON at position 12"))
        "2025-01-01T00:00:00.000Z")
     initialState).2 = Returns genericError.
Proof.
  destruct (C3_generic_500_only_from_error_handler
              (R := sampleRuntime) (C := failingCore)
              (mkIncoming PostSearch "POST" "/api/airbnb/search" None None None
                 (Throws (ErrorObj "Unexpected token } in JSON at position 12"))
                 "2025-01-01T00:00:00.000Z")
              initialState
              (ErrorObj "Unexpected token } in JSON at position 12")
              eq_refl) as (Happ & _).
  rewrite Happ. reflexivity.
Defined.

(** C3 as stated fails: when the search tool throws, the reply of
    [POST /api/airbnb/search] carries the exception's message. *)
Lemma C3_search_echoes_exception_message :
  handleAirbnbSearch (McpCore := failingCore) (JObj ∅) =
    Throws (ErrorObj "connect ECONNREFUSED 10.0.0.7:443")
  ∧ (handleAirbnbSearchAPI (R := sampleRuntime) (C := failingCore)
       (post "/api/airbnb/search" ∅ (JObj ∅)) initialState).2 =
      Returns (mkResponse 500
                 (obj [("error", JStr "connect ECONNREFUSED 10.0.0.7:443")]))
  ∧ json genericError ≠ obj [("error", JStr "connect ECONNREFUSED 10.0.0.7:443")].
Proof.
  split; [reflexivity |]. split; [reflexivity |].
  intros Heq. apply (f_equal (field "message")) in Heq.
  vm_compute in Heq. discriminate.
Qed.


Lemma C5_tools_list_echoes_id_and_catalog_witness :
  ∃ resp,
    handleMCPRequest (R := sampleRuntime) (C := sampleCore)
      (rpc [("jsonrpc", JStr "2.0"); ("id", JStr "req-1"); ("method", JStr "tools/list")])
      initialState = (initialState, Returns resp)
    ∧ status resp = 200%Z
    ∧ field "id" (json resp) = JStr "req-1"
    ∧ js_length (field "tools" (field "result" (json resp))) = Some 2.
Proof.
  destruct (C5_tools_list_echoes_id_and_catalog (R := sampleRuntime) (C := sampleCore)
      (rpc [("jsonrpc", JStr "2.0"); ("id", JStr "req-1"); ("method", JStr "tools/list")])
      initialState eq_refl eq_refl eq_refl)
    as (resp & Hrun & Hstatus & Hid & _ & Hlen & _).
  exists resp. split; [exact Hrun |]. split; [exact Hstatus |].
  split; [exact Hid | exact Hlen].
Defined.

Lemma C8_tools_call_rest_witness :
  handleCallTool (R := sampleRuntime) (C := sampleCore)
    (post "/api/tools/call" ∅ (obj [("arguments", JObj ∅)])) initialState =
    (initialState,
     Returns (mkResponse 400 (obj [("error", JStr "Tool name is required")])))
  ∧ (handleCallTool (R := sampleRuntime) (C := sampleCore)
       (post "/api/tools/call" ∅ (obj [("name", JStr "airbnb_search")]))
       initialState).2 =
      Returns (mkResponse 200 (obj [("content", JArr []); ("isError", JBool true)])).
Proof.
  split.
  - pose proof (C8_tools_call_rest (R := sampleRuntime) (C := sampleCore)
      (post "/api/tools/call" ∅ (obj [("arguments", JObj ∅)]))
      initialState eq_refl) as (Hmissing & _).
    apply Hmissing. vm_compute. reflexivity.
  - pose proof (C8_tools_call_rest (R := sampleRuntime) (C := sampleCore)
      (post "/api/tools/call" ∅ (obj [("name", JStr "airbnb_search")]))
      initialState eq_refl) as (_ & _ & Hsearch & _).
    apply Hsearch; vm_compute; reflexivity.
Defined.

Lemma C9_missing_arguments_stdio_vs_http_witness :
  (Stdio.callToolHandler (R := sampleRuntime) (C := sampleCore) sampleStringify 100 130 "2025-01-01T00:00:00.000Z"
     (obj [("params", obj [("name", JStr "airbnb_search")])]) initialState).2 =
    Throws (McpError (code_number InvalidParams) "Tool arguments are required")
  ∧ invocations
      (handleMCPRequest (R := sampleRuntime) (C := sampleCore)
         (rpc [("jsonrpc", JStr "2.0"); ("id", JNum 1); ("method", JStr "tools/call");
               ("params", obj [("name", JStr "airbnb_search")])])
         initialState).1 =
      [mkInvocation "airbnb_search" (JObj ∅)].
Proof.
  pose proof (C9_missing_arguments_stdio_vs_http (R := sampleRuntime) (C := sampleCore)
    (rpc [("jsonrpc", JStr "2.0"); ("id", JNum 1); ("method", JStr "tools/call");
          ("params", obj [("name", JStr "airbnb_search")])])
    (obj [("params", obj [("name", JStr "airbnb_search")])])
    (list_to_map (reverse [("name", JStr "airbnb_search")]))
    (JStr "airbnb_search") initialState sampleStringify 100 130
    "2025-01-01T00:00:00.000Z") as H.
  destruct H as (Hstdio & _ & _ & Hhttp & _); try (vm_compute; reflexivity).
  split; [exact Hstdio | exact (Hhttp eq_refl)].
Defined.

Lemma C10_error_id_is_null_for_falsy_id_witness :
  ∃ resp,
    (handleMCPRequest (R := sampleRuntime) (C := sampleCore)
       (rpc [("jsonrpc", JStr "2.0"); ("id", JNum 0); ("method", JStr "tools/run")])
       initialState).2 = Returns resp
    ∧ status resp = 400%Z
    ∧ field "id" (json resp) = JNull.
Proof.
  exists (mcpError (JNum 0) (code_number MethodNotFound)
       "MCP error -32601: Method not found: tools/run").
  pose proof (C10_error_id_is_null_for_falsy_id (R := sampleRuntime) (C := sampleCore)
    (rpc [("jsonrpc", JStr "2.0"); ("id", JNum 0); ("method", JStr "tools/run")])
    initialState
    (mcpError (JNum 0) (code_number MethodNotFound)
       "MCP error -32601: Method not found: tools/run")
    eq_refl eq_refl eq_refl) as (Hnull & _).
  split; [reflexivity |]. split; [reflexivity |].
  apply Hnull. reflexivity.
Defined.

Lemma C7_only_digests_stored_and_logged_witness :
  logs (setupAuthentication (R := sampleRuntime) (Some "tok1, tok2") initialState).1 =
    [ mkLog "info" "Access token loaded" (obj [("tokenHash", JStr "sha256:t...")]);
      mkLog "info" "Access token loaded" (obj [("tokenHash", JStr "sha256:t...")]) ]
  ∧ logs (authenticateToken (R := sampleRuntime) (withHeader "Bearer tok3")
            (setupAuthentication (R := sampleRuntime) (Some "tok1, tok2") initialState).1).1 =
      logs (setupAuthentication (R := sampleRuntime) (Some "tok1, tok2") initialState).1
      ++ [mkLog "warn" "Invalid token attempt" (obj [
            ("tokenHash", JStr "sha256:t..."); ("ip", JUndefined)])].
Proof.
  pose proof (C7_only_digests_stored_and_logged (R := sampleRuntime)
                (C := sampleCore) (Some "tok1, tok2")) as H.
  destruct H as (_ & _ & Hauth & _).
  destruct (Hauth (withHeader "Bearer tok3")
              (setupAuthentication (R := sampleRuntime) (Some "tok1, tok2") initialState).1)
    as (_ & [Hsame | (t & Ht & Hlog)]).
  - vm_compute in Hsame.
    apply (f_equal (@length LogEntry)) in Hsame. discriminate.
  - split; [reflexivity |]. reflexivity.
Defined.

(** * Further properties of the gateway *)

(** ** Frames *)

Lemma keeps_ret {X A} (f : ServerState → X) (a : A) : keeps f (mret a : M A).
Proof. by intros st. Qed.

Lemma keeps_throw {X A} (f : ServerState → X) e : keeps f (throw e : M A).
Proof. by intros st. Qed.

Lemma keeps_bind {X A B} (f : ServerState → X) (c : M A) (k : A → M B) :
  keeps f c → (∀ a, keeps f (k a)) → keeps f (c ≫= k).
Proof.
  intros Hc Hk st. rewrite run_bind. specialize (Hc st).
  destruct (c st) as [st' [a|e]]; cbn [fst] in *; [| done].
  by rewrite Hk.
Qed.

Lemma keeps_try_catch {X A} (f : ServerState → X) (c : M A) (h : JsError → M A) :
  keeps f c → (∀ e, keeps f (h e)) → keeps f (try_catch c h).
Proof.
  intros Hc Hh st. unfold try_catch. specialize (Hc st).
  destruct (c st) as [st' [a|e]]; cbn [fst] in *; [done |].
  by rewrite Hh.
Qed.

Lemma keeps_get {X} (f : ServerState → X) v k : keeps f (get v k).
Proof. by destruct v. Qed.

Lemma keeps_get_opt {X} (f : ServerState → X) v k : keeps f (get_opt v k).
Proof. by destruct v. Qed.

Lemma keeps_destructure {X} (f : ServerState → X) v e k :
  keeps f (destructure v e k).
Proof. by destruct v. Qed.

Lemma keeps_hasTokenHash {X} (f : ServerState → X) h : keeps f (hasTokenHash h).
Proof. by intros st. Qed.

Lemma keeps_template `{Runtime} {X} (f : ServerState → X) v :
  keeps f (template v).
Proof. intros st. rewrite run_template. by destruct (to_template v). Qed.

Lemma keeps_error_text `{Runtime} {X} (f : ServerState → X) e :
  keeps f (error_text e).
Proof.
  intros st. rewrite run_error_text. by destruct (error_message_or_string e).
Qed.

Lemma keeps_logs_invoke name impl args : keeps logs (invoke name impl args).
Proof. by intros st. Qed.

Lemma keeps_invocations_log lvl msg d : keeps invocations (log lvl msg d).
Proof. by intros st. Qed.

Lemma keeps_invocations_addTokenHash h : keeps invocations (addTokenHash h).
Proof. by intros st. Qed.

Create HintDb frames.
#[export] Hint Resolve keeps_ret keeps_throw keeps_get keeps_get_opt
  keeps_destructure keeps_hasTokenHash keeps_template keeps_error_text
  keeps_logs_invoke
  keeps_invocations_log keeps_invocations_addTokenHash : frames.

(** Walks a computation along its binds, [try]/[catch] and branches. *)
Ltac frame :=
  repeat first
    [ apply keeps_bind; [| intros ?]
    | apply keeps_try_catch; [| intros ?]
    | match goal with
      | |- keeps _ (if ?b then _ else _) => destruct b
      | |- keeps _ (match ?x with _ => _ end) => destruct x
      end
    | solve [auto with frames] ].

Section Further.
Context `{R : Runtime} `{C : McpCore}.

(** ** Authentication guards tool dispatch *)

Lemma authenticateToken_rejects req st :
  (∀ t, authorization req = Some ("Bearer " +:+ t) →
        sha256_hex t ∉ validTokenHashes st) →
  ∃ st' res,
    authenticateToken req st = (st', Returns (Rejected res))
    ∧ (res = missingHeader ∨ res = invalidToken)
    ∧ invocations st' = invocations st.
Proof.
  intros Hunknown.
  destruct (authorization req) as [h|] eqn:Hauth.
  - destruct (Str.startsWith "Bearer " h) eqn:Hs.
    + apply startsWith_Bearer in Hs as [t ->].
      rewrite (authenticateToken_bearer req st t Hauth).
      rewrite bool_decide_eq_false_2 by by apply Hunknown.
      do 2 eexists. split; [done |]. split; [by right | done].
    + rewrite authenticateToken_malformed.
      * do 2 eexists. split; [done |]. split; [by left | done].
      * intros t Ht. rewrite Hauth in Ht. injection Ht as ->.
        unfold Str.startsWith in Hs. by rewrite prefix_append in Hs.
  - rewrite authenticateToken_malformed.
    + do 2 eexists. split; [done |]. split; [by left | done].
    + intros t Ht. by rewrite Hauth in Ht.
Qed.

(** X1: a request that the router hands to one of the five routes behind
    [authenticateToken], with a header that is not [Bearer <token>] or
    with a token whose digest is not in the token set, calls no tool and
    leaves the token set as it is, whatever its body. When the body
    parsers accepted the body, the reply is one of the two HTTP 401
    bodies; when they handed an error on, the request never gets to
    [authenticateToken] and the reply is the generic HTTP 500 of the
    error handler. *)
Theorem unauthenticated_request_reaches_no_tool inc st :
  protected (in_route inc) = true →
  (∀ t, in_authorization inc = Some ("Bearer " +:+ t) →
        sha256_hex t ∉ validTokenHashes st) →
  invocations (app inc st).1 = invocations st
  ∧ validTokenHashes (app inc st).1 = validTokenHashes st
  ∧ (∀ b, parsedBody inc = Returns b →
       ∃ res, (app inc st).2 = Returns res
              ∧ status res = 401%Z
              ∧ (res = missingHeader ∨ res = invalidToken))
  ∧ (∀ err, parsedBody inc = Throws err →
       (app inc st).2 = Returns genericError
       ∧ status genericError = 500%Z).
Proof.
  intros Hprot Hunknown.
  split; [| split; [apply pt_app |]].
  - unfold app. destruct (parsedBody inc) as [b|err]; [| done].
    rewrite run_bind. unfold requestLogger, log at 1. cbn match.
    set (st1 := {| validTokenHashes := validTokenHashes st;
                   logs := _; invocations := invocations st |}).
    assert (Hrej : ∀ handler,
      invocations (authenticated handler (request_of inc b) st1).1
        = invocations st).
    { intros handler. unfold authenticated. rewrite run_bind.
      by destruct (authenticateToken_rejects (request_of inc b) st1 Hunknown)
        as (st' & res & -> & Hres & Hinv). }
    destruct (in_route inc); try discriminate; apply Hrej.
  - split.
    + intros b Hparse. unfold app. rewrite Hparse, run_bind.
      unfold requestLogger, log at 1. cbn match.
      set (st1 := {| validTokenHashes := validTokenHashes st;
                     logs := _; invocations := invocations st |}).
      assert (Hrej : ∀ handler,
        ∃ res, (authenticated handler (request_of inc b) st1).2 = Returns res
               ∧ status res = 401%Z
               ∧ (res = missingHeader ∨ res = invalidToken)).
      { intros handler. unfold authenticated. rewrite run_bind.
        destruct (authenticateToken_rejects (request_of inc b) st1 Hunknown)
          as (st' & res & -> & Hres & Hinv).
        exists res. rewrite run_ret. cbn [fst snd].
        split; [done |]. split; [by destruct Hres as [-> | ->] | done]. }
      destruct (in_route inc); try discriminate; apply Hrej.
    + intros err Hparse. unfold app. by rewrite Hparse.
Qed.

(** ** At most one tool call per request *)

Lemma amo_keeps {A} (c : M A) : keeps invocations c → callsAtMostOneTool c.
Proof. intros Hc st. left. apply Hc. Qed.

Lemma amo_bind_l {A B} (c : M A) (k : A → M B) :
  keeps invocations c → (∀ a, callsAtMostOneTool (k a)) →
  callsAtMostOneTool (c ≫= k).
Proof.
  intros Hc Hk st. rewrite run_bind. specialize (Hc st).
  destruct (c st) as [st' [a|e]]; cbn [fst] in *; [| by left].
  rewrite <- Hc. apply Hk.
Qed.

Lemma amo_bind_r {A B} (c : M A) (k : A → M B) :
  callsAtMostOneTool c → (∀ a, keeps invocations (k a)) →
  callsAtMostOneTool (c ≫= k).
Proof.
  intros Hc Hk st. rewrite run_bind. specialize (Hc st).
  destruct (c st) as [st' [a|e]]; cbn [fst] in *; [| done].
  by rewrite !(Hk a st').
Qed.

Lemma amo_try_catch {A} (c : M A) (h : JsError → M A) :
  callsAtMostOneTool c → (∀ e, keeps invocations (h e)) →
  callsAtMostOneTool (try_catch c h).
Proof.
  intros Hc Hh st. unfold try_catch. specialize (Hc st).
  destruct (c st) as [st' [a|e]]; cbn [fst] in *; [done |].
  by rewrite !(Hh e st').
Qed.

Lemma amo_callTool name args : callsAtMostOneTool (callTool name args).
Proof.
  intros st. rewrite run_callTool.
  destruct (is_str name "airbnb_search"); [right; eexists; split; [done | by left] |].
  destruct (is_str name "airbnb_listing_details");
    [right; eexists; split; [done | by right] |].
  left. by destruct (to_template name).
Qed.

Lemma amo_handleMCPRequest req : callsAtMostOneTool (handleMCPRequest req).
Proof.
  unfold handleMCPRequest. apply amo_try_catch; [| intros e; frame].
  apply amo_bind_l; [frame |]. intros jsonrpc.
  destruct (_ || _); [apply amo_keeps; frame |].
  apply amo_bind_l; [frame |]. intros meth.
  apply amo_bind_r; [| intros r; frame].
  destruct (is_str meth "tools/list"); [apply amo_keeps; frame |].
  destruct (is_str meth "tools/call"); [| apply amo_keeps; frame].
  apply amo_bind_l; [frame |]. intros ps.
  apply amo_bind_l; [frame |]. intros name.
  destruct (negb _); [apply amo_keeps; frame |].
  apply amo_bind_l; [frame |]. intros args. apply amo_callTool.
Qed.

Lemma amo_handleCallTool req : callsAtMostOneTool (handleCallTool req).
Proof.
  unfold handleCallTool. apply amo_try_catch; [| intros e; frame].
  apply amo_bind_l; [frame |]. intros name.
  apply amo_bind_l; [frame |]. intros args.
  destruct (negb _); [apply amo_keeps; frame |].
  apply amo_bind_r; [apply amo_callTool | intros r; frame].
Qed.

Lemma amo_handleAirbnbSearchAPI req : callsAtMostOneTool (handleAirbnbSearchAPI req).
Proof.
  unfold handleAirbnbSearchAPI. apply amo_try_catch; [| intros e; frame].
  apply amo_bind_r; [| intros r; frame].
  intros st. right. eexists. split; [done | by left].
Qed.

Lemma amo_handleAirbnbListingAPI req : callsAtMostOneTool (handleAirbnbListingAPI req).
Proof.
  unfold handleAirbnbListingAPI. apply amo_try_catch; [| intros e; frame].
  apply amo_bind_r; [| intros r; frame].
  intros st. right. eexists. split; [done | by right].
Qed.

Lemma keeps_invocations_authenticateToken req :
  keeps invocations (authenticateToken req).
Proof. unfold authenticateToken. frame. Qed.

Lemma amo_authenticated handler req :
  (∀ r, callsAtMostOneTool (handler r)) →
  callsAtMostOneTool (authenticated handler req).
Proof.
  intros Hh. unfold authenticated.
  apply amo_bind_l; [apply keeps_invocations_authenticateToken |].
  intros [res | req']; [apply amo_keeps; frame | apply Hh].
Qed.

(** X2: whatever the request (route, header, body, even a body the parsers
    reject), the gateway calls at most one tool for it, and only one of
    the two registered tools. *)
Theorem app_calls_at_most_one_tool inc st :
  invocations (app inc st).1 = invocations st
  ∨ ∃ i, invocations (app inc st).1 = invocations st ++ [i]
         ∧ (tool i = "airbnb_search" ∨ tool i = "airbnb_listing_details").
Proof.
  revert st. change (callsAtMostOneTool (app inc)).
  unfold app. destruct (parsedBody inc) as [b|err].
  - apply amo_bind_l; [unfold requestLogger; frame |]. intros _.
    destruct (in_route inc);
      first [ apply amo_authenticated; intros r;
              first [ apply amo_handleMCPRequest | apply amo_handleCallTool
                    | apply amo_handleAirbnbSearchAPI
                    | apply amo_handleAirbnbListingAPI
                    | apply amo_keeps; unfold handleListTools; frame ]
            | apply amo_keeps; unfold health, notFound; frame ].
  - apply amo_keeps. unfold errorHandler. frame.
Qed.

(** ** What the gateway logs for a request *)










(** ** Routes that need no token *)

(** X4: [GET /health] and the 404 fallback do not look at credentials. For
    two requests on the same such route with the same clock reading,
    whose bodies the parsers accepted, the replies are equal whatever the
    two [Authorization] headers, the two parsed bodies and the two token
    sets: HTTP 200 with the health document on [/health], HTTP 404 with
    the list of endpoints on a route that does not exist. A request whose
    body the parsers refused gets the generic HTTP 500 on these routes
    too. In no case a tool is called or the token set changed. *)
Theorem open_routes_ignore_credentials inc1 inc2 st1 st2 :
  in_route inc1 = in_route inc2 → arrival inc1 = arrival inc2 →
  protected (in_route inc1) = false →
  (∀ b1 b2, parsedBody inc1 = Returns b1 → parsedBody inc2 = Returns b2 →
     (app inc1 st1).2 = (app inc2 st2).2
     ∧ (in_route inc1 = GetHealth →
          (app inc1 st1).2 = Returns (healthReply (arrival inc1))
          ∧ status (healthReply (arrival inc1)) = 200%Z)
     ∧ (in_route inc1 = NoRoute →
          (app inc1 st1).2 = Returns notFoundReply
          ∧ status notFoundReply = 404%Z))
  ∧ (∀ err, parsedBody inc1 = Throws err →
       (app inc1 st1).2 = Returns genericError
       ∧ status genericError = 500%Z)
  ∧ invocations (app inc1 st1).1 = invocations st1
  ∧ validTokenHashes (app inc1 st1).1 = validTokenHashes st1.
Proof.
  intros Hroute Harr Hopen. split; [| split; [| split; [| apply pt_app]]].
  - intros b1 b2 Hp1 Hp2. unfold app.
    rewrite Hp1, Hp2, <- Hroute, <- Harr, !run_bind.
    unfold requestLogger, log. cbn match.
    destruct (in_route inc1); try discriminate.
    + split; [done |]. split; [done | by intros [=]].
    + split; [done |]. split; [by intros [=] | done].
  - intros err Hp. unfold app. by rewrite Hp.
  - unfold app. destruct (parsedBody inc1) as [b|err]; [| done].
    rewrite run_bind. unfold requestLogger, log. cbn match.
    by destruct (in_route inc1).
Qed.

(** ** The tool registry *)

Lemma callTool_registered name n impl args st :
  registeredTool name = Some (n, impl) →
  callTool name args st = invoke n impl args st.
Proof.
  unfold registeredTool. rewrite run_callTool.
  destruct (is_str name "airbnb_search"); [by intros [= <- <-] |].
  destruct (is_str name "airbnb_listing_details"); [by intros [= <- <-] | done].
Qed.

Lemma callTool_unregistered name args st :
  registeredTool name = None →
  callTool name args st =
  match to_template name with
  | Some text =>
      (st, Throws (McpError (code_number MethodNotFound)
                     ("Unknown tool: " +:+ text)))
  | None => (st, Throws (ErrorObj cannotConvert))
  end.
Proof.
  unfold registeredTool. rewrite run_callTool.
  destruct (is_str name "airbnb_search"); [done |].
  by destruct (is_str name "airbnb_listing_details").
Qed.

Lemma registeredTool_name name n impl :
  registeredTool name = Some (n, impl) → name = JStr n.
Proof.
  unfold registeredTool.
  destruct name as [| | | |s| |]; try discriminate. simpl.
  destruct (String.eqb_spec s "airbnb_search") as [-> |]; [by intros [= <- _] |].
  destruct (String.eqb_spec s "airbnb_listing_details") as [-> |];
    [by intros [= <- _] | done].
Qed.

(** ** The listing alias: the other properties *)

(** X5: the detail tool gets every property of the body other than [id] as
    the body has it (for an array body, its elements under their
    indices), and no property the body does not have. *)
Theorem listing_alias_forwards_other_properties req st :
  ∃ args,
    invocations (handleAirbnbListingAPI req st).1 =
      invocations st ++ [mkInvocation "airbnb_listing_details" args]
    ∧ (∀ k, k ≠ "id" →
         field k args = default JUndefined (own_properties (body req) !! k))
    ∧ (∀ m k, body req = JObj m → k ≠ "id" → field k args = field k (body req)).
Proof.
  exists (listingParams req).
  assert (Hother : ∀ k, k ≠ "id" →
    field k (listingParams req)
      = default JUndefined (own_properties (body req) !! k)).
  { intros k Hk. unfold listingParams, spread, field.
    rewrite lookup_union, lookup_singleton_ne by done.
    by destruct (own_properties (body req) !! k). }
  split; [apply handleAirbnbListingAPI_invocations |]. split; [exact Hother |].
  intros m k Hb Hk. rewrite (Hother k Hk), Hb. reflexivity.
Qed.

(** ** [POST /api/tools/call]: errors and defaults *)

(** X6: with a truthy [name], the REST alias answers an unregistered name with
    HTTP 400, calling no tool: the body holds the message of the
    [MethodNotFound] error when the name has a text form (every string
    has), and the message of the [TypeError] of the template literal when
    it has none; for a registered name it calls that tool once, with
    [arguments] or with the empty object when [arguments] is falsy, and
    answers its result with HTTP 200 or the message of its exception with
    HTTP 400. *)
Theorem rest_tools_call_outcomes req st :
  nullish (body req) = false →
  truthy (field "name" (body req)) = true →
  let name := field "name" (body req) in
  let args := js_or (field "arguments" (body req)) (JObj ∅) in
  (truthy (field "arguments" (body req)) = false → args = JObj ∅)
  ∧ (truthy (field "arguments" (body req)) = true →
       args = field "arguments" (body req))
  ∧ (registeredTool name = None →
       handleCallTool req st =
         (st, Returns (mkResponse 400 (obj [
            ("error", JStr (match to_template name with
                            | Some text =>
                                mcpErrorMessage (code_number MethodNotFound)
                                  ("Unknown tool: " +:+ text)
                            | None => cannotConvert
                            end))]))))
  ∧ (∀ n impl, registeredTool name = Some (n, impl) →
       invocations (handleCallTool req st).1 =
         invocations st ++ [mkInvocation n args]
       ∧ (handleCallTool req st).2 =
           Returns (match impl args with
                    | Returns r => mkResponse 200 r
                    | Throws e => mkResponse 400 (errorBody e)
                    end)).
Proof.
  intros Hb Hname name args.
  assert (Hrun := run_handleCallTool req st Hb).
  rewrite Hname in Hrun. cbn [negb] in Hrun. fold name args in Hrun.
  split; [| split; [| split]].
  - intros Hf. unfold args, js_or. by rewrite Hf.
  - intros Ht. unfold args, js_or. by rewrite Ht.
  - intros Hnone. rewrite Hrun, (callTool_unregistered _ _ _ Hnone).
    by destruct (to_template name).
  - intros n impl Hsome.
    rewrite Hrun, (callTool_registered _ _ _ _ _ Hsome), run_invoke.
    by destruct (impl args).
Qed.

(** ** [POST /mcp]: a tool that throws *)

(** X7: when the tool called through [tools/call] throws, [POST /mcp] answers
    HTTP 400 with an error whose code is the code of the exception if it is
    an [McpError] (whatever that code is) and [InternalError] otherwise,
    and whose message is the exception's message; the call is recorded. *)
Theorem mcp_tool_exception_maps_to_400 req st n impl e :
  nullish (body req) = false →
  is_str (field "jsonrpc" (body req)) "2.0" = true →
  is_str (field "method" (body req)) "tools/call" = true →
  let name := field "name" (field "params" (body req)) in
  let args := js_or (field "arguments" (field "params" (body req))) (JObj ∅) in
  registeredTool name = Some (n, impl) →
  impl args = Throws e →
  handleMCPRequest req st =
    ({| validTokenHashes := validTokenHashes st;
        logs := logs st;
        invocations := invocations st ++ [mkInvocation n args] |},
     Returns (mcpError (field "id" (body req))
                (match e with
                 | McpError c _ => c
                 | _ => code_number InternalError
                 end)
                (error_message e))).
Proof.
  intros Hb Hv Hc name args Hsome He.
  assert (Hl : is_str (field "method" (body req)) "tools/list" = false).
  { destruct (field "method" (body req)) as [| | | |s| |]; try discriminate.
    simpl in *. apply String.eqb_eq in Hc as ->. reflexivity. }
  assert (Hn : truthy name = true).
  { rewrite (registeredTool_name _ _ _ Hsome).
    unfold registeredTool in Hsome.
    destruct (is_str name "airbnb_search"); [by injection Hsome as <- _ |].
    destruct (is_str name "airbnb_listing_details");
      [by injection Hsome as <- _ | done]. }
  rewrite (run_handleMCPRequest req st Hb), Hv, Hl, Hc. fold name args.
  rewrite Hn. cbn [negb].
  rewrite (callTool_registered _ _ _ _ _ Hsome), run_invoke, He.
  by destruct e.
Qed.

(** ** [POST /mcp]: the envelope *)

(** X8: every reply of [POST /mcp] carries [jsonrpc: '2.0']; a reply with
    HTTP 200 has no [error], a reply with HTTP 400 has no [result] and an
    [error] made of a numeric [code] and a [message]. *)
Theorem mcp_reply_result_xor_error req st resp :
  nullish (body req) = false →
  (handleMCPRequest req st).2 = Returns resp →
  field "jsonrpc" (json resp) = JStr "2.0"
  ∧ ((status resp = 200%Z ∧ field "error" (json resp) = JUndefined)
     ∨ (status resp = 400%Z
        ∧ field "result" (json resp) = JUndefined
        ∧ ∃ c msg, field "error" (json resp)
                   = obj [("code", JNum c); ("message", JStr msg)])).
Proof.
  intros Hb Hresp.
  destruct (mcp_reply_shape req st Hb) as (st' & resp' & Hrun & Hshape).
  rewrite Hrun in Hresp. injection Hresp as <-.
  destruct Hshape as [[r ->] | (c & msg & ->)].
  - split; [reflexivity |]. left. by split.
  - split; [reflexivity |]. right. split; [done |]. split; [reflexivity |].
    by exists c, msg.
Qed.

(** ** The search alias and [tools/call] *)

(** X9: [POST /api/airbnb/search] with body [b] and [POST /api/tools/call]
    with [{name: 'airbnb_search', arguments: b}] call the search tool with
    the same arguments [b] and answer its result alike with HTTP 200; when
    the tool throws, both answer its message, the alias with HTTP 500 and
    [tools/call] with HTTP 400. *)
Theorem search_alias_agrees_with_tools_call reqA reqC st :
  truthy (body reqA) = true →
  field "name" (body reqC) = JStr "airbnb_search" →
  field "arguments" (body reqC) = body reqA →
  invocations (handleAirbnbSearchAPI reqA st).1
    = invocations st ++ [mkInvocation "airbnb_search" (body reqA)]
  ∧ invocations (handleCallTool reqC st).1
    = invocations st ++ [mkInvocation "airbnb_search" (body reqA)]
  ∧ match handleAirbnbSearch (body reqA) with
    | Returns r =>
        (handleAirbnbSearchAPI reqA st).2 = Returns (mkResponse 200 r)
        ∧ (handleCallTool reqC st).2 = Returns (mkResponse 200 r)
    | Throws e =>
        (handleAirbnbSearchAPI reqA st).2 = Returns (mkResponse 500 (errorBody e))
        ∧ (handleCallTool reqC st).2 = Returns (mkResponse 400 (errorBody e))
    end.
Proof.
  intros Htruthy Hname Hargs.
  assert (Hb : nullish (body reqC) = false).
  { by destruct (body reqC). }
  rewrite (run_handleCallTool reqC st Hb), Hname, Hargs.
  change (truthy (JStr "airbnb_search")) with true. cbn [negb].
  unfold js_or. rewrite Htruthy, callTool_search, run_invoke.
  unfold handleAirbnbSearchAPI, try_catch. rewrite run_bind, run_invoke.
  destruct (handleAirbnbSearch (body reqA)); by repeat split.
Qed.

(** ** The stdio handler *)

Lemma run_log lvl msg d st : log lvl msg d st = (withLog st (mkLog lvl msg d), Returns tt).
Proof. reflexivity. Qed.

Lemma stdio_catch stringify t0 t1 ts pm name e st :
  pm !! "name" = Some name →
  (name0 ← get (JObj pm) "name";
   text ← error_text e;
   log "error" "Tool call failed" (obj [
     ("tool", name0);
     ("duration", JStr (pretty (t1 - t0)%Z +:+ "ms"));
     ("error", JStr text)]);;
   match e with
   | McpError _ _ => throw e
   | _ =>
       mret (obj [
         ("content", JArr [obj [
            ("type", JStr "text");
            ("text", JStr (stringify (obj [
               ("error", JStr text);
               ("timestamp", JStr ts)])))]]);
         ("isError", JBool true)])
   end) st
  = stdioFailure stringify name (t1 - t0) ts e st.
Proof.
  intros Hname. rewrite run_bind, run_get_obj, Hname.
  cbn [default from_option id]. rewrite run_bind, run_error_text.
  unfold stdioFailure.
  destruct (error_message_or_string e) as [text|]; [| done].
  rewrite run_bind, run_log. by destruct e.
Qed.

(** What the stdio handler does with a request that names a tool and
    carries arguments, along its [switch], its [try] and its [catch]. *)
Lemma run_callToolHandler stringify t0 t1 ts request pm name args st :
  field "params" request = JObj pm →
  pm !! "name" = Some name → truthy name = true →
  pm !! "arguments" = Some args → truthy args = true →
  Stdio.callToolHandler stringify t0 t1 ts request st =
  let ms := (t1 - t0)%Z in
  let st1 := withLog st (receivedLine name args) in
  match registeredTool name with
  | None =>
      stdioFailure stringify name ms ts
        (match to_template name with
         | Some text =>
             McpError (code_number MethodNotFound) ("Unknown tool: " +:+ text)
         | None => ErrorObj cannotConvert
         end) st1
  | Some (n, impl) =>
      let st2 := withInvocation st1 (mkInvocation n args) in
      match impl args with
      | Throws e => stdioFailure stringify name ms ts e st2
      | Returns r =>
          if nullish r then
            stdioFailure stringify name ms ts
              (ErrorObj ("Cannot read properties of " +:+ nullishText r
                           +:+ " (reading 'isError')")) st2
          else
            (withLog st2
               (completedLine name ms (negb (truthy (field "isError" r)))),
             Returns r)
      end
  end.
Proof.
  intros Hps Hname Htruthy Hargs Hatruthy.
  destruct (field_obj_inv _ _ _ Hps) as [rm ->]. cbn [field] in Hps.
  cbn zeta. unfold Stdio.callToolHandler, try_catch.
  rewrite run_bind, run_get_obj, Hps.
  rewrite run_bind, run_get_obj, Hname. cbn [default from_option id].
  rewrite Htruthy. cbn [negb].
  rewrite run_bind, run_ret, run_bind, run_get_obj, Hargs.
  cbn [default from_option id]. rewrite Hatruthy. cbn [negb].
  rewrite run_bind, run_ret, run_bind, run_log, run_bind.
  change (if is_str name "airbnb_search" then _ else _)
    with (callTool name args).
  destruct (registeredTool name) as [[n impl]|] eqn:Hreg.
  - rewrite (callTool_registered _ _ _ _ _ Hreg), run_invoke.
    change {| validTokenHashes := _; logs := _; invocations := _ |}
      with (withInvocation (withLog st (receivedLine name args))
              (mkInvocation n args)).
    destruct (impl args) as [r|e].
    + rewrite run_bind. destruct (nullish r) eqn:Hr.
      * assert (Hget : ∀ s, get r "isError" s =
                  (s, Throws (ErrorObj ("Cannot read properties of "
                                +:+ nullishText r +:+ " (reading 'isError')"))))
          by (intros s; by destruct r).
        rewrite Hget. exact (stdio_catch stringify t0 t1 ts pm name _ _ Hname).
      * rewrite (get_field _ _ Hr), run_ret, run_bind, run_log, run_ret.
        reflexivity.
    + exact (stdio_catch stringify t0 t1 ts pm name e _ Hname).
  - rewrite (callTool_unregistered _ _ _ Hreg).
    destruct (to_template name);
      exact (stdio_catch stringify t0 t1 ts pm name _ _ Hname).
Qed.

(** X10: a tool call over stdio that succeeds: the handler returns the tool's
    result unchanged, whatever its [isError] flag, after calling the tool
    once with the arguments as they came; it logs the call and its
    completion, with [success] the negation of [isError]. *)
Theorem stdio_returns_tool_result_unchanged
    stringify t0 t1 ts request pm name args n impl r st :
  field "params" request = JObj pm →
  pm !! "name" = Some name → truthy name = true →
  pm !! "arguments" = Some args → truthy args = true →
  registeredTool name = Some (n, impl) →
  impl args = Returns r → nullish r = false →
  Stdio.callToolHandler stringify t0 t1 ts request st =
    ({| validTokenHashes := validTokenHashes st;
        logs := logs st ++ [receivedLine name args;
                            completedLine name (t1 - t0)
                              (negb (truthy (field "isError" r)))];
        invocations := invocations st ++ [mkInvocation n args] |},
     Returns r).
Proof.
  intros Hps Hname Htruthy Hargs Hatruthy Hreg Hr Hnn.
  rewrite (run_callToolHandler _ _ _ _ _ _ _ _ _
             Hps Hname Htruthy Hargs Hatruthy).
  cbn zeta. rewrite Hreg, Hr, Hnn.
  unfold withLog, withInvocation. cbn [validTokenHashes logs invocations].
  by rewrite <- app_assoc.
Qed.

(** X11: a tool call over stdio that fails. An unregistered name calls no
    tool: it throws [MethodNotFound] with the name in the message when the
    name has a text form (every string has), and when it has none the
    [TypeError] of the template literal is returned as an error payload.
    An [McpError] thrown by the tool is rethrown as it is; any other
    exception of the tool is not thrown but returned, as a payload with
    [isError: true] that holds the exception's message. Each of these
    failures is logged once. Only when the thrown value itself has no
    text form does the [catch] throw, before it logs. *)
Theorem stdio_failure_thrown_or_returned
    stringify t0 t1 ts request pm name args st :
  field "params" request = JObj pm →
  pm !! "name" = Some name → truthy name = true →
  pm !! "arguments" = Some args → truthy args = true →
  let run := Stdio.callToolHandler stringify t0 t1 ts request st in
  (registeredTool name = None →
     invocations run.1 = invocations st
     ∧ (∀ text, to_template name = Some text →
          run.2 = Throws (McpError (code_number MethodNotFound)
                            ("Unknown tool: " +:+ text)))
     ∧ (to_template name = None →
          run.2 = Returns (errorPayload stringify cannotConvert ts)))
  ∧ (∀ n impl e text,
       registeredTool name = Some (n, impl) → impl args = Throws e →
       error_message_or_string e = Some text →
       invocations run.1 = invocations st ++ [mkInvocation n args]
       ∧ logs run.1 = logs st ++ [receivedLine name args;
                                  failedLine name (t1 - t0) text]
       ∧ run.2 = match e with
                 | McpError _ _ => Throws e
                 | _ => Returns (errorPayload stringify text ts)
                 end
       ∧ field "isError" (errorPayload stringify text ts) = JBool true)
  ∧ (∀ n impl e,
       registeredTool name = Some (n, impl) → impl args = Throws e →
       error_message_or_string e = None →
       invocations run.1 = invocations st ++ [mkInvocation n args]
       ∧ logs run.1 = logs st ++ [receivedLine name args]
       ∧ run.2 = Throws (ErrorObj cannotConvert)).
Proof.
  intros Hps Hname Htruthy Hargs Hatruthy run.
  assert (Hrun := run_callToolHandler stringify t0 t1 ts request pm name args st
                    Hps Hname Htruthy Hargs Hatruthy).
  fold run in Hrun. cbn zeta in Hrun. split; [| split].
  - intros Hnone. rewrite Hrun, Hnone. unfold stdioFailure.
    destruct (to_template name) as [text|]; cbn [error_message_or_string].
    + split; [done |]. split; [by intros ? [= <-] | done].
    + split; [done |]. split; [done | by intros _].
  - intros n impl e text Hreg He Htext. rewrite Hrun, Hreg, He.
    unfold stdioFailure. rewrite Htext. unfold withLog, withInvocation.
    cbn [fst snd validTokenHashes logs invocations].
    split; [done |]. split; [by rewrite <- app_assoc |]. by split.
  - intros n impl e Hreg He Htext. rewrite Hrun, Hreg, He.
    unfold stdioFailure. rewrite Htext. by repeat split.
Qed.

(** X12: a tool that returns [null] or [undefined] over stdio: reading
    [result.isError] throws inside the handler's [try], so the handler
    returns an error payload with the [TypeError]'s message instead of the
    tool's value, although the tool was called. *)
Theorem stdio_nullish_tool_result_becomes_error_payload
    stringify t0 t1 ts request pm name args n impl r st :
  field "params" request = JObj pm →
  pm !! "name" = Some name → truthy name = true →
  pm !! "arguments" = Some args → truthy args = true →
  registeredTool name = Some (n, impl) →
  impl args = Returns r → nullish r = true →
  let run := Stdio.callToolHandler stringify t0 t1 ts request st in
  let msg := "Cannot read properties of " +:+ nullishText r
             +:+ " (reading 'isError')" in
  run.2 = Returns (errorPayload stringify msg ts)
  ∧ invocations run.1 = invocations st ++ [mkInvocation n args]
  ∧ logs run.1 = logs st ++ [receivedLine name args;
                             failedLine name (t1 - t0) msg].
Proof.
  intros Hps Hname Htruthy Hargs Hatruthy Hreg Hr Hnull run msg.
  subst run.
  rewrite (run_callToolHandler _ _ _ _ _ _ _ _ _
             Hps Hname Htruthy Hargs Hatruthy).
  cbn zeta. rewrite Hreg, Hr, Hnull.
  unfold stdioFailure, withLog, withInvocation.
  cbn [fst snd validTokenHashes logs invocations error_message_or_string].
  split; [done |]. split; [done |]. by rewrite <- app_assoc.
Qed.

(** ** The two JSON-RPC surfaces on the same call *)



(** ** Which tokens can be configured *)

Lemma split_no_separator sep s w :
  w ∈ Str.split sep s → sep ∉ chars w.
Proof.
  revert w. induction s as [|c s IH]; intros w Hin; cbn [Str.split] in Hin.
  - apply list_elem_of_singleton in Hin as ->. apply not_elem_of_nil.
  - destruct (Ascii.eqb_spec c sep) as [-> | Hne].
    + apply elem_of_cons in Hin as [-> | Hin]; [apply not_elem_of_nil | by apply IH].
    + destruct (Str.split sep s) as [|w0 ws] eqn:Hsplit.
      * apply list_elem_of_singleton in Hin as ->.
        intros Hc. apply elem_of_cons in Hc as [-> | Hc]; [done |].
        by apply elem_of_nil in Hc.
      * apply elem_of_cons in Hin as [-> | Hin].
        -- intros Hc. apply elem_of_cons in Hc as [-> | Hc]; [done |].
           apply (IH w0); [apply list_elem_of_here | done].
        -- apply IH. by apply list_elem_of_further.
Qed.

Lemma chars_trimStart c s : c ∈ chars (Str.trimStart s) → c ∈ chars s.
Proof.
  induction s as [|d s IH]; cbn [Str.trimStart]; [done |].
  destruct (Str.is_ws d); [| done].
  intros Hin. apply list_elem_of_further. by apply IH.
Qed.

Lemma chars_trimEnd c s : c ∈ chars (Str.trimEnd s) → c ∈ chars s.
Proof.
  induction s as [|d s IH]; cbn [Str.trimEnd]; [done |].
  destruct (Str.trimEnd s) as [|e t] eqn:Ht.
  - destruct (Str.is_ws d); [by intros Hin%elem_of_nil |].
    intros Hin. apply elem_of_cons in Hin as [-> | Hin];
      [apply list_elem_of_here | by apply elem_of_nil in Hin].
  - intros Hin. apply elem_of_cons in Hin as [-> | Hin];
      [apply list_elem_of_here |].
    apply list_elem_of_further. by apply IH.
Qed.

Lemma trimEnd_idempotent s : Str.trimEnd (Str.trimEnd s) = Str.trimEnd s.
Proof.
  induction s as [|c s IH]; cbn [Str.trimEnd]; [done |].
  destruct (Str.trimEnd s) as [|d t] eqn:Ht.
  - destruct (Str.is_ws c) eqn:Hc; [done |].
    cbn [Str.trimEnd]. by rewrite Hc.
  - cbn [Str.trimEnd] in *. by rewrite IH.
Qed.

Lemma trimStart_head s :
  Str.trimStart s = ""
  ∨ ∃ c r, Str.trimStart s = String c r ∧ Str.is_ws c = false.
Proof.
  induction s as [|c s IH]; cbn [Str.trimStart]; [by left |].
  destruct (Str.is_ws c) eqn:Hc; [done | right; eauto].
Qed.

Lemma trimEnd_keeps_head c r :
  Str.is_ws c = false → ∃ r', Str.trimEnd (String c r) = String c r'.
Proof.
  intros Hc. cbn [Str.trimEnd].
  destruct (Str.trimEnd r); [rewrite Hc |]; eauto.
Qed.

Lemma trim_idempotent s : Str.trim (Str.trim s) = Str.trim s.
Proof.
  unfold Str.trim.
  destruct (trimStart_head s) as [-> | (c & r & -> & Hc)]; [done |].
  destruct (trimEnd_keeps_head c r Hc) as [r' Hr'].
  rewrite Hr' at 1. cbn [Str.trimStart]. rewrite Hc, <- Hr'.
  apply trimEnd_idempotent.
Qed.

Lemma loaded_shape env t :
  loaded env t → t ≠ "" ∧ (","%char ∉ chars t) ∧ Str.trim t = t.
Proof.
  intros (pat & Hin & Hne & <-). split; [done |]. split.
  - intros Hc. apply chars_trimEnd, chars_trimStart in Hc.
    destruct env as [s|]; [| by apply elem_of_nil in Hin].
    by apply (split_no_separator _ _ _ Hin).
  - apply trim_idempotent.
Qed.

(** X14: a token the store loads is never empty, holds no comma and has no
    white space at either end. So a request whose token is empty, holds a
    comma or is padded with white space is rejected with the invalid-token
    401 whatever [MCP_ACCESS_TOKENS] is, provided its digest does not
    collide with that of a loaded token. *)
Theorem token_with_comma_or_padding_is_never_accepted env req t :
  let st := (setupAuthentication env initialState).1 in
  (loaded env t → t ≠ "" ∧ (","%char ∉ chars t) ∧ Str.trim t = t)
  ∧ (authorization req = Some ("Bearer " +:+ t) →
     t = "" ∨ ","%char ∈ chars t ∨ Str.trim t ≠ t →
     collisionFree env t = true →
     (authenticateToken req st).2 = Returns (Rejected invalidToken)).
Proof.
  intros st. split; [apply loaded_shape |].
  intros Hauth Hbad Hcf.
  assert (Hnl : ¬ loaded env t).
  { intros Hl. destruct (loaded_shape env t Hl) as (Hne & Hcomma & Htrim).
    by destruct Hbad as [? | [? | ?]]. }
  destruct (run_setupAuthentication env initialState) as (hs & Hrun & Hhs).
  rewrite (authenticateToken_bearer req st t Hauth).
  rewrite bool_decide_eq_false_2; [done |].
  subst st. rewrite Hrun. cbn [fst validTokenHashes].
  by apply (collisionFree_not_loaded env).
Qed.

(** ** The token set and the form of [MCP_ACCESS_TOKENS] *)

Lemma authenticateToken_outcome_by_tokens req st1 st2 :
  validTokenHashes st1 = validTokenHashes st2 →
  (authenticateToken req st1).2 = (authenticateToken req st2).2.
Proof.
  intros Heq.
  destruct (authorization req) as [h|] eqn:Hauth.
  - destruct (Str.startsWith "Bearer " h) eqn:Hs.
    + apply startsWith_Bearer in Hs as [t ->].
      rewrite !(authenticateToken_bearer req _ t Hauth), Heq.
      by destruct (bool_decide _).
    + rewrite !authenticateToken_malformed; [done | |];
        intros t Ht; rewrite Hauth in Ht; injection Ht as ->;
        unfold Str.startsWith in Hs; by rewrite prefix_append in Hs.
  - rewrite !authenticateToken_malformed; [done | |];
      intros t Ht; by rewrite Hauth in Ht.
Qed.

(** X15: two values of [MCP_ACCESS_TOKENS] that list the same tokens after
    trimming, in any order, with any repetition, padding or blank entries,
    give the same token set, and so the same decision on every request. *)
Theorem token_set_ignores_order_repetition_and_padding env1 env2 :
  (∀ t, loaded env1 t ↔ loaded env2 t) →
  validTokenHashes (setupAuthentication env1 initialState).1
    = validTokenHashes (setupAuthentication env2 initialState).1
  ∧ ∀ req,
      (authenticateToken req (setupAuthentication env1 initialState).1).2
        = (authenticateToken req (setupAuthentication env2 initialState).1).2.
Proof.
  intros Hsame.
  assert (Heq : validTokenHashes (setupAuthentication env1 initialState).1
                = validTokenHashes (setupAuthentication env2 initialState).1).
  { destruct (run_setupAuthentication env1 initialState) as (hs1 & -> & H1).
    destruct (run_setupAuthentication env2 initialState) as (hs2 & -> & H2).
    cbn [fst validTokenHashes]. apply set_eq. intros h.
    rewrite H1, H2. split; (intros [Hin | (t & Hl & ->)]; [by left | right]);
      exists t; (split; [by apply Hsame | done]). }
  split; [exact Heq |]. intros req.
  by apply authenticateToken_outcome_by_tokens.
Qed.

(** ** An accepted request *)

Lemma handlers_ignore_user h r req :
  routeHandler r = Some h → ∀ hash, h (withUser req hash) = h req.
Proof. destruct r; intros [= <-] hash; reflexivity. Qed.

(** X16: on a protected route, a request whose token's digest is in the token
    set reaches the route's handler with the body as parsed, after the
    request line and without any further log line; the reply is the
    handler's reply and does not depend on which token was presented
    ([req.user] is set but no handler reads it). *)
Theorem accepted_request_gets_the_handler_reply inc b st t h :
  parsedBody inc = Returns b →
  routeHandler (in_route inc) = Some h →
  in_authorization inc = Some ("Bearer " +:+ t) →
  sha256_hex t ∈ validTokenHashes st →
  app inc st = h (request_of inc b) (withLog st (requestLine inc)).
Proof.
  intros Hparse Hroute Hauth Hknown. unfold app. rewrite Hparse, run_bind.
  unfold requestLogger. rewrite run_log.
  change (mkLog "info" "HTTP Request" _) with (requestLine inc).
  assert (Hgo : authenticated h (request_of inc b) (withLog st (requestLine inc))
                = h (request_of inc b) (withLog st (requestLine inc))).
  { unfold authenticated. rewrite run_bind.
    rewrite (authenticateToken_bearer (request_of inc b) _ t) by exact Hauth.
    rewrite bool_decide_eq_true_2 by exact Hknown.
    by rewrite (handlers_ignore_user h _ _ Hroute). }
  destruct (in_route inc); try discriminate; injection Hroute as <-; exact Hgo.
Qed.

(** ** The catalog on the REST surface *)

(** X17: [POST /api/tools/list] answers HTTP 200 with the catalog whatever the
    body is, changes nothing, and its body is the [result] that
    [tools/list] gets on [POST /mcp]. *)
Theorem rest_list_is_the_rpc_list_result req reqRpc st :
  nullish (body reqRpc) = false →
  is_str (field "jsonrpc" (body reqRpc)) "2.0" = true →
  is_str (field "method" (body reqRpc)) "tools/list" = true →
  ∃ rest rpcReply,
    handleListTools req st = (st, Returns rest)
    ∧ handleMCPRequest reqRpc st = (st, Returns rpcReply)
    ∧ status rest = 200%Z
    ∧ json rest = field "result" (json rpcReply)
    ∧ field "tools" (json rest) = JArr AIRBNB_TOOLS.
Proof.
  intros Hb Hv Hl.
  exists (mkResponse 200 catalog), (mcpResult (field "id" (body reqRpc)) catalog).
  rewrite (run_handleMCPRequest reqRpc st Hb), Hv, Hl.
  by repeat split.
Qed.

End Further.

(** * The further properties on sample inputs *)

Lemma unauthenticated_request_reaches_no_tool_witness :
  let st := (setupAuthentication (R := sampleRuntime) (Some "tok1") initialState).1 in
  let inc := incoming PostToolsCall "/api/tools/call" (Some "Bearer guess")
               (obj [("name", JStr "airbnb_search")]) in
  invocations (app (R := sampleRuntime) (C := sampleCore) inc st).1
    = invocations st
  ∧ ∃ res,
      (app (R := sampleRuntime) (C := sampleCore) inc st).2 = Returns res
      ∧ status res = 401%Z
      ∧ (res = missingHeader ∨ res = invalidToken).
Proof.
  intros st inc.
  assert (Hunknown : ∀ t, in_authorization inc = Some ("Bearer " +:+ t) →
            @sha256_hex sampleRuntime t ∉ validTokenHashes st).
  { intros t Ht. vm_compute in Ht. simplify_eq. intros Hin.
    apply (bool_decide_eq_true_2 _) in Hin. vm_compute in Hin. discriminate. }
  destruct (unauthenticated_request_reaches_no_tool (R := sampleRuntime)
              (C := sampleCore) inc st eq_refl Hunknown)
    as (Hinv & _ & Hreply & _).
  split; [exact Hinv |].
  apply (Hreply (obj [("name", JStr "airbnb_search")])). reflexivity.
Defined.


Lemma open_routes_ignore_credentials_witness :
  (app (R := sampleRuntime) (C := sampleCore)
     (incoming GetHealth "/health" None (JObj ∅)) initialState).2
  = (app (R := sampleRuntime) (C := sampleCore)
       (incoming GetHealth "/health" (Some "Bearer tok1") (obj [("x", JNum 1)]))
       (setupAuthentication (R := sampleRuntime) (Some "tok1") initialState).1).2.
Proof.
  destruct (open_routes_ignore_credentials (R := sampleRuntime) (C := sampleCore)
              (incoming GetHealth "/health" None (JObj ∅))
              (incoming GetHealth "/health" (Some "Bearer tok1") (obj [("x", JNum 1)]))
              initialState
              (setupAuthentication (R := sampleRuntime) (Some "tok1") initialState).1
              eq_refl eq_refl eq_refl) as (Hsame & _).
  destruct (Hsame (JObj ∅) (obj [("x", JNum 1)]) eq_refl eq_refl) as (Heq & _).
  exact Heq.
Defined.

Lemma listing_alias_forwards_other_properties_witness :
  ∃ args,
    invocations (handleAirbnbListingAPI (R := sampleRuntime) (C := sampleCore)
        (post "/api/airbnb/listing/42" {["id" := "42"]}
           (obj [("id", JNum 99); ("checkin", JStr "2025-01-01")]))
        initialState).1
      = [mkInvocation "airbnb_listing_details" args]
    ∧ field "checkin" args = JStr "2025-01-01".
Proof.
  destruct (listing_alias_forwards_other_properties (R := sampleRuntime)
              (C := sampleCore)
              (post "/api/airbnb/listing/42" {["id" := "42"]}
                 (obj [("id", JNum 99); ("checkin", JStr "2025-01-01")]))
              initialState) as (args & Hinv & Hother & _).
  exists args. split; [exact Hinv |].
  rewrite (Hother "checkin"); [reflexivity | discriminate].
Defined.

Lemma rest_tools_call_outcomes_witness :
  handleCallTool (R := sampleRuntime) (C := sampleCore)
    (post "/api/tools/call" ∅ (obj [("name", JStr "airbnb_book")])) initialState
  = (initialState,
     Returns (mkResponse 400 (obj [
       ("error", JStr "MCP error -32601: Unknown tool: airbnb_book")]))).
Proof.
  pose proof (rest_tools_call_outcomes (R := sampleRuntime) (C := sampleCore)
    (post "/api/tools/call" ∅ (obj [("name", JStr "airbnb_book")]))
    initialState eq_refl eq_refl) as (_ & _ & Hunknown & _).
  apply Hunknown. reflexivity.
Defined.

Lemma mcp_tool_exception_maps_to_400_witness :
  (handleMCPRequest (R := sampleRuntime) (C := timeoutCore)
     (rpc (("jsonrpc", JStr "2.0") :: ("id", JNum 3)
           :: ("method", JStr "tools/call") :: [("params", obj parisParams)]))
     initialState).2
  = Returns (mcpError (JNum 3) (-32001) "MCP error -32001: Request timed out").
Proof.
  rewrite (mcp_tool_exception_maps_to_400 (R := sampleRuntime) (C := timeoutCore)
    (rpc (("jsonrpc", JStr "2.0") :: ("id", JNum 3)
          :: ("method", JStr "tools/call") :: [("params", obj parisParams)]))
    initialState "airbnb_search" (handleAirbnbSearch (McpCore := timeoutCore))
    (McpError (-32001) "Request timed out")); reflexivity.
Defined.

Lemma mcp_reply_result_xor_error_witness :
  ∃ resp,
    (handleMCPRequest (R := sampleRuntime) (C := sampleCore)
       (rpc [("jsonrpc", JStr "2.0"); ("id", JNum 5); ("method", JStr "tools/list")])
       initialState).2 = Returns resp
    ∧ field "jsonrpc" (json resp) = JStr "2.0"
    ∧ field "error" (json resp) = JUndefined.
Proof.
  exists (mcpResult (JNum 5) (catalog (H := sampleCore))).
  destruct (mcp_reply_result_xor_error (R := sampleRuntime) (C := sampleCore)
    (rpc [("jsonrpc", JStr "2.0"); ("id", JNum 5); ("method", JStr "tools/list")])
    initialState (mcpResult (JNum 5) (catalog (H := sampleCore)))
    eq_refl eq_refl) as (Hversion & [[_ Hnoerr] | [Hstatus _]]).
  - split; [reflexivity |]. by split.
  - discriminate Hstatus.
Defined.

Lemma search_alias_agrees_with_tools_call_witness :
  (handleAirbnbSearchAPI (R := sampleRuntime) (C := failingCore)
     (post "/api/airbnb/search" ∅ (obj [("location", JStr "Paris")]))
     initialState).2
    = Returns (mkResponse 500
                 (obj [("error", JStr "connect ECONNREFUSED 10.0.0.7:443")]))
  ∧ (handleCallTool (R := sampleRuntime) (C := failingCore)
       (post "/api/tools/call" ∅ (obj parisParams)) initialState).2
    = Returns (mkResponse 400
                 (obj [("error", JStr "connect ECONNREFUSED 10.0.0.7:443")])).
Proof.
  pose proof (search_alias_agrees_with_tools_call (R := sampleRuntime)
    (C := failingCore)
    (post "/api/airbnb/search" ∅ (obj [("location", JStr "Paris")]))
    (post "/api/tools/call" ∅ (obj parisParams))
    initialState eq_refl eq_refl eq_refl) as (_ & _ & Hreplies).
  exact Hreplies.
Defined.

Lemma stdio_returns_tool_result_unchanged_witness :
  (Stdio.callToolHandler (R := sampleRuntime) (C := sampleCore) sampleStringify
     100 130 "2025-01-01T00:00:00.000Z" (stdioCall parisParams) initialState).2
  = Returns (obj [("content", JArr []); ("isError", JBool true)]).
Proof.
  rewrite (stdio_returns_tool_result_unchanged (R := sampleRuntime)
    (C := sampleCore) sampleStringify 100 130 "2025-01-01T00:00:00.000Z"
    (stdioCall parisParams) (list_to_map (reverse parisParams))
    (JStr "airbnb_search") (obj [("location", JStr "Paris")])
    "airbnb_search" (handleAirbnbSearch (McpCore := sampleCore))
    (obj [("content", JArr []); ("isError", JBool true)]) initialState);
    reflexivity.
Defined.

Lemma stdio_failure_thrown_or_returned_witness :
  (Stdio.callToolHandler (R := sampleRuntime) (C := failingCore) sampleStringify
     100 130 "2025-01-01T00:00:00.000Z" (stdioCall parisParams) initialState).2
  = Returns (errorPayload sampleStringify "connect ECONNREFUSED 10.0.0.7:443"
               "2025-01-01T00:00:00.000Z")
  ∧ (Stdio.callToolHandler (R := sampleRuntime) (C := timeoutCore) sampleStringify
       100 130 "2025-01-01T00:00:00.000Z" (stdioCall parisParams) initialState).2
    = Throws (McpError (-32001) "Request timed out").
Proof.
  split.
  - pose proof (stdio_failure_thrown_or_returned (R := sampleRuntime)
      (C := failingCore) sampleStringify 100 130 "2025-01-01T00:00:00.000Z"
      (stdioCall parisParams) (list_to_map (reverse parisParams))
      (JStr "airbnb_search") (obj [("location", JStr "Paris")]) initialState
      eq_refl eq_refl eq_refl eq_refl eq_refl) as (_ & Hfail & _).
    destruct (Hfail "airbnb_search" (handleAirbnbSearch (McpCore := failingCore))
                (ErrorObj "connect ECONNREFUSED 10.0.0.7:443")
                "connect ECONNREFUSED 10.0.0.7:443" eq_refl eq_refl eq_refl)
      as (_ & _ & Hout & _).
    exact Hout.
  - pose proof (stdio_failure_thrown_or_returned (R := sampleRuntime)
      (C := timeoutCore) sampleStringify 100 130 "2025-01-01T00:00:00.000Z"
      (stdioCall parisParams) (list_to_map (reverse parisParams))
      (JStr "airbnb_search") (obj [("location", JStr "Paris")]) initialState
      eq_refl eq_refl eq_refl eq_refl eq_refl) as (_ & Hfail & _).
    destruct (Hfail "airbnb_search" (handleAirbnbSearch (McpCore := timeoutCore))
                (McpError (-32001) "Request timed out")
                "MCP error -32001: Request timed out" eq_refl eq_refl eq_refl)
      as (_ & _ & Hout & _).
    exact Hout.
Defined.

Lemma stdio_nullish_tool_result_becomes_error_payload_witness :
  (Stdio.callToolHandler (R := sampleRuntime) (C := silentCore) sampleStringify
     100 130 "2025-01-01T00:00:00.000Z" (stdioCall parisParams) initialState).2
  = Returns (errorPayload sampleStringify
               "Cannot read properties of undefined (reading 'isError')"
               "2025-01-01T00:00:00.000Z").
Proof.
  pose proof (stdio_nullish_tool_result_becomes_error_payload
    (R := sampleRuntime) (C := silentCore) sampleStringify 100 130
    "2025-01-01T00:00:00.000Z" (stdioCall parisParams)
    (list_to_map (reverse parisParams))
    (JStr "airbnb_search") (obj [("location", JStr "Paris")])
    "airbnb_search" (handleAirbnbSearch (McpCore := silentCore))
    JUndefined initialState
    eq_refl eq_refl eq_refl eq_refl eq_refl eq_refl eq_refl eq_refl)
    as (Hout & _).
  exact Hout.
Defined.


Lemma token_with_comma_or_padding_is_never_accepted_witness :
  (authenticateToken (R := sampleRuntime) (withHeader "Bearer tok1,tok2")
     (setupAuthentication (R := sampleRuntime) (Some "tok1,tok2") initialState).1).2
  = Returns (Rejected invalidToken).
Proof.
  pose proof (token_with_comma_or_padding_is_never_accepted (R := sampleRuntime)
    (Some "tok1,tok2") (withHeader "Bearer tok1,tok2") "tok1,tok2")
    as (_ & Hreject).
  apply Hreject; [reflexivity | | reflexivity].
  right. left. vm_compute.
  do 4 apply list_elem_of_further. apply list_elem_of_here.
Defined.

Lemma token_set_ignores_order_repetition_and_padding_witness :
  validTokenHashes
    (setupAuthentication (R := sampleRuntime) (Some "tok1,tok2") initialState).1
  = validTokenHashes
      (setupAuthentication (R := sampleRuntime) (Some " tok2 ,tok1,,tok1")
         initialState).1.
Proof.
  apply (token_set_ignores_order_repetition_and_padding (R := sampleRuntime)
           (Some "tok1,tok2") (Some " tok2 ,tok1,,tok1")).
  assert (Hpick : ∀ env pat t,
            pat ∈ accessTokens env → Str.trim pat ≠ "" → Str.trim pat = t →
            loaded env t).
  { intros env pat t Hin Hne Heq. by exists pat. }
  intros t. split; intros (pat & Hin & Hne & Heq); vm_compute in Hin;
    repeat (apply elem_of_cons in Hin as [-> | Hin]);
    try (by apply elem_of_nil in Hin);
    vm_compute in Heq; subst t;
    first [ by destruct Hne
          | solve [ apply (Hpick _ "tok1"); [ | vm_compute; discriminate | reflexivity ];
                    vm_compute;
                    repeat first [apply list_elem_of_here | apply list_elem_of_further] ]
          | solve [ apply (Hpick _ "tok2"); [ | vm_compute; discriminate | reflexivity ];
                    vm_compute;
                    repeat first [apply list_elem_of_here | apply list_elem_of_further] ]
          | solve [ apply (Hpick _ " tok2 "); [ | vm_compute; discriminate | reflexivity ];
                    vm_compute;
                    repeat first [apply list_elem_of_here | apply list_elem_of_further] ] ].
Defined.

Lemma accepted_request_gets_the_handler_reply_witness :
  let st := (setupAuthentication (R := sampleRuntime) (Some "tok1, tok2") initialState).1 in
  (app (R := sampleRuntime) (C := sampleCore)
     (incoming PostToolsCall "/api/tools/call" (Some "Bearer tok2") (obj parisParams))
     st).2
  = Returns (mkResponse 200 (obj [("content", JArr []); ("isError", JBool true)])).
Proof.
  intros st.
  rewrite (accepted_request_gets_the_handler_reply (R := sampleRuntime)
    (C := sampleCore)
    (incoming PostToolsCall "/api/tools/call" (Some "Bearer tok2") (obj parisParams))
    (obj parisParams) st "tok2" handleCallTool eq_refl eq_refl eq_refl).
  - reflexivity.
  - apply (bool_decide_eq_true_1
             (@sha256_hex sampleRuntime "tok2" ∈ validTokenHashes st)).
    vm_compute. reflexivity.
Defined.

Lemma rest_list_is_the_rpc_list_result_witness :
  ∃ rest rpcReply,
    handleListTools (R := sampleRuntime) (C := sampleCore)
      (post "/api/tools/list" ∅ (JObj ∅)) initialState
      = (initialState, Returns rest)
    ∧ handleMCPRequest (R := sampleRuntime) (C := sampleCore)
        (rpc [("jsonrpc", JStr "2.0"); ("id", JNum 1); ("method", JStr "tools/list")])
        initialState = (initialState, Returns rpcReply)
    ∧ json rest = field "result" (json rpcReply).
Proof.
  destruct (rest_list_is_the_rpc_list_result (R := sampleRuntime) (C := sampleCore)
    (post "/api/tools/list" ∅ (JObj ∅))
    (rpc [("jsonrpc", JStr "2.0"); ("id", JNum 1); ("method", JStr "tools/list")])
    initialState eq_refl eq_refl eq_refl)
    as (rest & rpcReply & Hrest & Hrpc & _ & Hsame & _).
  exists rest, rpcReply. by repeat split.
Defined.
